(** * apollo service:check -- the report formatter and the check command

    A shallow embedding of [packages/apollo/src/commands/service/check.ts]:
    [formatChange], [formatMarkdown] and [ServiceCheck.run], with the
    collaborators the command calls (schema resolution, git metadata,
    historic-parameter validation, the Engine check, the terminal colours)
    taken as parameters, and the effects of [run] (collaborator calls, log
    lines, the table, the exit signal) recorded in a trace. *)

From Stdlib Require Import ZArith List String Ascii Bool Lia.
From Stdlib Require Import DecimalString DecimalPos DecimalZ.
From ExtLib Require Import Structures.Monad Structures.MonadState
  Structures.MonadExc Data.Monads.StateMonad Data.Monads.EitherMonad.
Import ListNotations.
Import MonadNotation.

Local Open Scope monad_scope.
Local Open Scope string_scope.
Local Open Scope Z_scope.

(** ** Strings as the JavaScript code uses them *)

(** The line feed, written [\n] in the source. *)
Definition nl : string := String (ascii_of_nat 10) EmptyString.

(** [String(n)] for the integers the templates interpolate: array lengths
    and the day count. *)
Definition Number_toString (z : Z) : string :=
  NilZero.string_of_int (Z.to_int z).

Definition length_toString {A : Type} (l : list A) : string :=
  Number_toString (Z.of_nat (List.length l)).

(** [s.startsWith(p)] and [s.includes(p)]. *)
Fixpoint startsWith (p s : string) : bool :=
  match p, s with
  | EmptyString, _ => true
  | String a p', String b s' => Ascii.eqb a b && startsWith p' s'
  | String _ _, EmptyString => false
  end.

Fixpoint includes (p s : string) : bool :=
  startsWith p s ||
  match s with
  | EmptyString => false
  | String _ s' => includes p s'
  end.

Definition is_ascii (c : ascii) : bool := (nat_of_ascii c <? 128)%nat.

Fixpoint all_ascii (s : string) : bool :=
  match s with
  | EmptyString => true
  | String c s' => is_ascii c && all_ascii s'
  end.

(** JavaScript truthiness of a possibly missing string: [undefined], [null]
    and the empty string are falsy. *)
Definition truthy (o : option string) : bool :=
  match o with
  | Some s => negb (s =? "")%string
  | None => false
  end.

(** [a || b] on possibly missing strings. *)
Definition js_or (a b : option string) : option string :=
  if truthy a then a else b.

(** A possibly [null] string interpolated in a template literal. *)
Definition template (o : option string) : string :=
  match o with
  | Some s => s
  | None => "null"
  end.

(** ** JSON text

    [JSON.stringify(value, null, 2)] and [JSON.parse] are the runtime's; they
    are written out here, after ECMA-262 (SerializeJSONProperty with a gap of
    two spaces, QuoteJSONString), for the values the command prints: [null],
    integers, strings, arrays and objects. Strings are byte strings (the
    UTF-8 text), so the bytes from 128 up pass through unescaped. *)
Module JSON.

Local Unset Elimination Schemes.

Inductive value : Type :=
| Null
| Number (z : Z)
| Str (s : string)
| Array (items : list value)
| Object (members : list (string * value)).

Local Set Elimination Schemes.

Definition dquote : ascii := ascii_of_nat 34.
Definition backslash : ascii := ascii_of_nat 92.

Definition hex_digit (n : nat) : ascii :=
  nth n ["0"; "1"; "2"; "3"; "4"; "5"; "6"; "7"; "8"; "9";
         "a"; "b"; "c"; "d"; "e"; "f"]%char "0"%char.

(** QuoteJSONString, one character. *)
Definition escape (c : ascii) : string :=
  let n := nat_of_ascii c in
  if Ascii.eqb c dquote then String backslash (String dquote "")
  else if Ascii.eqb c backslash then String backslash (String backslash "")
  else if (n =? 8)%nat then String backslash "b"
  else if (n =? 12)%nat then String backslash "f"
  else if (n =? 10)%nat then String backslash "n"
  else if (n =? 13)%nat then String backslash "r"
  else if (n =? 9)%nat then String backslash "t"
  else if (n <? 32)%nat
       then String backslash
              (String "u" (String "0" (String "0"
                (String (hex_digit (n / 16))
                   (String (hex_digit (n mod 16)) "")))))
  else String c "".

Fixpoint escape_all (s : string) : string :=
  match s with
  | EmptyString => ""
  | String c s' => escape c ++ escape_all s'
  end.

Definition quote (s : string) : string :=
  String dquote (escape_all s ++ String dquote "").

Fixpoint indent (level : nat) : string :=
  match level with
  | O => ""
  | S l => "  " ++ indent l
  end.

Fixpoint join (sep : string) (parts : list string) : string :=
  match parts with
  | [] => ""
  | [p] => p
  | p :: ps => p ++ sep ++ join sep ps
  end.

(** SerializeJSONProperty at a nesting [level], gap of two spaces. *)
Fixpoint serialize (level : nat) (v : value) : string :=
  match v with
  | Null => "null"
  | Number z => Number_toString z
  | Str s => quote s
  | Array [] => "[]"
  | Array items =>
      let separator := "," ++ nl ++ indent (S level) in
      "[" ++ nl ++ indent (S level)
      ++ join separator (map (serialize (S level)) items)
      ++ nl ++ indent level ++ "]"
  | Object [] => "{}"
  | Object members =>
      let separator := "," ++ nl ++ indent (S level) in
      "{" ++ nl ++ indent (S level)
      ++ join separator
           (map (fun m => quote (fst m) ++ ": " ++ serialize (S level) (snd m))
                members)
      ++ nl ++ indent level ++ "}"
  end.

Definition stringify (v : value) : string := serialize 0 v.

(** *** The reader *)

Definition is_ws (c : ascii) : bool :=
  let n := nat_of_ascii c in
  (n =? 32)%nat || (n =? 10)%nat || (n =? 13)%nat || (n =? 9)%nat.

Fixpoint skip_ws (s : string) : string :=
  match s with
  | EmptyString => ""
  | String c s' => if is_ws c then skip_ws s' else s
  end.

Definition is_digit (c : ascii) : bool :=
  let n := nat_of_ascii c in (48 <=? n)%nat && (n <=? 57)%nat.

Definition hex_value (c : ascii) : option nat :=
  let n := nat_of_ascii c in
  if is_digit c then Some (n - 48)%nat
  else if (97 <=? n)%nat && (n <=? 102)%nat then Some (n - 87)%nat
  else if (65 <=? n)%nat && (n <=? 70)%nat then Some (n - 55)%nat
  else None.

Definition hex4 (a b c d : ascii) : option nat :=
  match hex_value a, hex_value b, hex_value c, hex_value d with
  | Some x, Some y, Some z, Some w =>
      Some (((x * 16 + y) * 16 + z) * 16 + w)%nat
  | _, _, _, _ => None
  end.

(** The character a one-letter escape stands for. *)
Definition unescape (e : ascii) : option ascii :=
  if Ascii.eqb e dquote then Some dquote
  else if Ascii.eqb e backslash then Some backslash
  else if Ascii.eqb e "/" then Some "/"%char
  else if Ascii.eqb e "b" then Some (ascii_of_nat 8)
  else if Ascii.eqb e "f" then Some (ascii_of_nat 12)
  else if Ascii.eqb e "n" then Some (ascii_of_nat 10)
  else if Ascii.eqb e "r" then Some (ascii_of_nat 13)
  else if Ascii.eqb e "t" then Some (ascii_of_nat 9)
  else None.

Definition cons_char (c : ascii) (r : option (string * string))
    : option (string * string) :=
  match r with
  | Some (t, rest) => Some (String c t, rest)
  | None => None
  end.

(** The characters of a string literal, after its opening quote; yields
    the string and the text after the closing quote. A [\u] escape is read
    when it names an ASCII character. *)
Fixpoint parse_chars (s : string) : option (string * string) :=
  match s with
  | EmptyString => None
  | String c r =>
      if Ascii.eqb c dquote then Some ("", r)
      else if Ascii.eqb c backslash then
        match r with
        | EmptyString => None
        | String e r1 =>
            if Ascii.eqb e "u" then
              match r1 with
              | String h1 (String h2 (String h3 (String h4 r2))) =>
                  match hex4 h1 h2 h3 h4 with
                  | Some n =>
                      if (n <? 128)%nat
                      then cons_char (ascii_of_nat n) (parse_chars r2)
                      else None
                  | None => None
                  end
              | _ => None
              end
            else
              match unescape e with
              | Some c' => cons_char c' (parse_chars r1)
              | None => None
              end
        end
      else if (nat_of_ascii c <? 32)%nat then None
      else cons_char c (parse_chars r)
  end.

Fixpoint span_digits (s : string) : string * string :=
  match s with
  | EmptyString => ("", "")
  | String c s' =>
      if is_digit c
      then let (d, rest) := span_digits s' in (String c d, rest)
      else ("", s)
  end.

(** An integer in its canonical decimal form (no leading zero, no
    negative zero). *)
Definition parse_number (s : string) : option (Z * string) :=
  let (sign, s1) :=
    match s with
    | String c s' => if Ascii.eqb c "-" then ("-", s') else ("", s)
    | EmptyString => ("", s)
    end in
  let (digits, rest) := span_digits s1 in
  match NilZero.int_of_string (sign ++ digits) with
  | Some i =>
      let z := Z.of_int i in
      if (Number_toString z =? sign ++ digits)%string
      then Some (z, rest) else None
  | None => None
  end.

Fixpoint parse_value (fuel : nat) (s : string) : option (value * string) :=
  match fuel with
  | O => None
  | S fuel' =>
      match skip_ws s with
      | EmptyString => None
      | String c r =>
          if Ascii.eqb c "n" then
            match r with
            | String "u" (String "l" (String "l" r')) => Some (Null, r')
            | _ => None
            end
          else if Ascii.eqb c dquote then
            match parse_chars r with
            | Some (t, r') => Some (Str t, r')
            | None => None
            end
          else if Ascii.eqb c "[" then
            match skip_ws r with
            | EmptyString => None
            | String c' r' =>
                if Ascii.eqb c' "]" then Some (Array [], r')
                else
                  match parse_elements fuel' r with
                  | Some (items, r'') => Some (Array items, r'')
                  | None => None
                  end
            end
          else if Ascii.eqb c "{" then
            match skip_ws r with
            | EmptyString => None
            | String c' r' =>
                if Ascii.eqb c' "}" then Some (Object [], r')
                else
                  match parse_members fuel' r with
                  | Some (members, r'') => Some (Object members, r'')
                  | None => None
                  end
            end
          else if Ascii.eqb c "-" || is_digit c then
            match parse_number (String c r) with
            | Some (z, r') => Some (Number z, r')
            | None => None
            end
          else None
      end
  end

with parse_elements (fuel : nat) (s : string)
    : option (list value * string) :=
  match fuel with
  | O => None
  | S fuel' =>
      match parse_value fuel' s with
      | None => None
      | Some (v, r) =>
          match skip_ws r with
          | EmptyString => None
          | String c r' =>
              if Ascii.eqb c "," then
                match parse_elements fuel' r' with
                | Some (vs, r'') => Some (v :: vs, r'')
                | None => None
                end
              else if Ascii.eqb c "]" then Some ([v], r')
              else None
          end
      end
  end

with parse_members (fuel : nat) (s : string)
    : option (list (string * value) * string) :=
  match fuel with
  | O => None
  | S fuel' =>
      match skip_ws s with
      | EmptyString => None
      | String q r0 =>
          if Ascii.eqb q dquote then
            match parse_chars r0 with
            | None => None
            | Some (k, r1) =>
                match skip_ws r1 with
                | EmptyString => None
                | String colon r2 =>
                    if Ascii.eqb colon ":" then
                      match parse_value fuel' r2 with
                      | None => None
                      | Some (v, r) =>
                          match skip_ws r with
                          | EmptyString => None
                          | String c r' =>
                              if Ascii.eqb c "," then
                                match parse_members fuel' r' with
                                | Some (ms, r'') => Some ((k, v) :: ms, r'')
                                | None => None
                                end
                              else if Ascii.eqb c "}" then Some ([(k, v)], r')
                              else None
                          end
                      end
                    else None
                end
            end
          else None
      end
  end.

(** [JSON.parse]: one value, then only white space. *)
Definition parse (s : string) : option value :=
  match parse_value (String.length s) s with
  | Some (v, rest) =>
      match skip_ws rest with
      | EmptyString => Some v
      | String _ _ => None
      end
  | None => None
  end.

(** How much fuel the reader needs for a value: one for the value, one
    for each element or member, and what these need. *)
Fixpoint size (v : value) : nat :=
  match v with
  | Array items => S (list_sum (map (fun x => S (size x)) items))
  | Object members => S (list_sum (map (fun m => S (size (snd m))) members))
  | _ => 1
  end.

(** Text at which a number ends: it does not go on with a digit. *)
Definition ends_number (rest : string) : bool :=
  match rest with
  | EmptyString => true
  | String c _ => negb (is_digit c)
  end.

(** The characters a serialized value begins with. *)
Definition starts_value (c : ascii) : bool :=
  Ascii.eqb c "n" || Ascii.eqb c dquote || Ascii.eqb c "[" || Ascii.eqb c "{"
  || Ascii.eqb c "-" || is_digit c.

(** Induction on values through their elements and members. *)
Fixpoint value_induction (P : value -> Prop)
    (PNull : P Null)
    (PNumber : forall z, P (Number z))
    (PStr : forall s, P (Str s))
    (PArray : forall items, Forall P items -> P (Array items))
    (PObject : forall members,
        Forall (fun m => P (snd m)) members -> P (Object members))
    (v : value) {struct v} : P v :=
  let rec := value_induction P PNull PNumber PStr PArray PObject in
  match v with
  | Null => PNull
  | Number z => PNumber z
  | Str s => PStr s
  | Array items =>
      PArray items
        ((fix all (l : list value) : Forall P l :=
            match l with
            | [] => Forall_nil P
            | x :: l' => Forall_cons x (rec x) (all l')
            end) items)
  | Object members =>
      PObject members
        ((fix all (l : list (string * value))
            : Forall (fun m => P (snd m)) l :=
            match l with
            | [] => Forall_nil _
            | m :: l' =>
                @Forall_cons _ (fun m => P (snd m)) m l' (rec (snd m)) (all l')
            end) members)
  end.

(** The keys of an object, in order. *)
Definition keys (v : value) : list string :=
  match v with
  | Object members => map fst members
  | _ => []
  end.

Fixpoint get (key : string) (members : list (string * value))
    : option value :=
  match members with
  | [] => None
  | (k, v) :: ms => if (k =? key)%string then Some v else get key ms
  end.

End JSON.

(** ** moment: the operations [formatMarkdown] uses

    A moment in local mode is an instant in milliseconds, or an invalid
    date ([None]): a date is valid up to 8.64e15 milliseconds on either
    side of the epoch. [add n "second"] moves the instant by [n] seconds
    (and leaves the moment alone when that is nothing). [a.diff(b, "days")]
    is not a number when either date is invalid; else it takes the
    difference in milliseconds, takes off the change of the local zone's
    UTC offset from [a] to [b] ([utcOffset], in minutes, of an instant),
    divides by the milliseconds of a day and truncates toward zero. The
    quotient is exact here; moment divides in floating point, which gives
    the same whole number as long as the difference is under 2^26 days
    ([exact_span] milliseconds). *)
Module moment.

Definition max_instant : Z := 8640000000000000.

Definition valid (ms : Z) : bool :=
  (- max_instant <=? ms) && (ms <=? max_instant).

Definition at_instant (ms : Z) : option Z :=
  if valid ms then Some ms else None.

Definition add_second (m : option Z) (n : Z) : option Z :=
  match m with
  | Some ms => if n * 1000 =? 0 then Some ms else at_instant (ms + n * 1000)
  | None => None
  end.

Definition diff_days (utcOffset : Z -> Z) (a b : option Z) : option Z :=
  match a, b with
  | Some this, Some that =>
      let zoneDelta := (utcOffset that - utcOffset this) * 60000 in
      Some (Z.quot (this - that - zoneDelta) 86400000)
  | _, _ => None
  end.

Definition exact_span : Z := 2 ^ 26 * 86400000.

End moment.

(** ** The data model of a check result

    The types of the check result are generated GraphQL types of
    apollo-language-server, and [ApolloConfig] is declared there too; the
    records below hold the fields the command reads. *)

(** Modelled from the spec: the declaration of [ChangeType] is not among
    the sources; the severity is a closed enumeration of three levels, each
    named by its string. *)
Inductive ChangeType : Type := FAILURE | NOTICE | WARNING.

Definition ChangeType_value (t : ChangeType) : string :=
  match t with
  | FAILURE => "FAILURE"
  | NOTICE => "NOTICE"
  | WARNING => "WARNING"
  end.

Definition ChangeType_eq_dec (a b : ChangeType) : {a = b} + {a <> b}.
Proof. decide equality. Defined.

Definition ChangeType_eqb (a b : ChangeType) : bool :=
  match a, b with
  | FAILURE, FAILURE | NOTICE, NOTICE | WARNING, WARNING => true
  | _, _ => false
  end.

(** Modelled from the spec: the declaration of a change is not among the
    sources; a change has a type, a code and a description. *)
Record Change : Type := mkChange {
  type : ChangeType;
  code : string;
  description : string
}.

(** Modelled from the spec: the declaration of the window is not among the
    sources; [from] and [to] are signed offsets from now, in seconds. *)
Record ValidationConfig : Type := mkValidationConfig {
  from : Z;
  to : Z
}.

(** The configuration, as far as the command reads it: [config.name],
    [config.tag], [config.service.name] and [config.engine.frontend]; the
    tag and the service name are strings, as the parameter of
    [formatMarkdown] declares them. *)
Record ApolloConfig : Type := mkApolloConfig {
  config_name : option string;
  config_tag : string;
  config_service_name : string;
  config_engine_frontend : option string
}.

(** The flags of the command, and [frontend] of [ProjectCommand.flags]. *)
Record Flags : Type := mkFlags {
  flag_tag : option string;
  flag_validationPeriod : option string;
  flag_queryCountThreshold : option Z;
  flag_queryCountThresholdPercentage : option Z;
  flag_json : bool;
  flag_markdown : bool;
  flag_frontend : option string
}.

(** The argument of [validateHistoricParams]. *)
Record HistoricFlags : Type := mkHistoricFlags {
  hf_validationPeriod : option string;
  hf_queryCountThreshold : option Z;
  hf_queryCountThresholdPercentage : option Z
}.

(** A table row, as [formatChange] returns it, and a column of [table]. *)
Record Row : Type := mkRow {
  row_type : string;
  row_code : string;
  row_description : string
}.

Record Column : Type := mkColumn {
  key : string;
  label : string
}.

(** Sample inputs for the runs worked out at the end: a configuration with
    and without a service name, and the flags of the three output modes. *)
Definition sampleConfig : ApolloConfig :=
  {| config_name := Some "my-service";
     config_tag := "";
     config_service_name := "my-service";
     config_engine_frontend := None |}.

Definition unnamedConfig : ApolloConfig :=
  {| config_name := None;
     config_tag := "";
     config_service_name := "";
     config_engine_frontend := None |}.

Definition sampleFlags (asJson asMarkdown : bool) : Flags :=
  {| flag_tag := None;
     flag_validationPeriod := Some "P1W";
     flag_queryCountThreshold := None;
     flag_queryCountThresholdPercentage := None;
     flag_json := asJson;
     flag_markdown := asMarkdown;
     flag_frontend := None |}.

(** How [run] ends when neither the task nor the report fails: it returns,
    or it calls [this.exit()], the failing status of the source's comment.
    The framework's [exit] leaves [run] by raising its exit signal; that
    signal is this outcome, kept apart from the failures in [Exn]. *)
Inductive Outcome : Type := Returned | Exited.

Section ServiceCheck.

(** Data the command only passes along. *)
Context {AffectedQuery Schema IntrospectionSchema GitContext
         HistoricParameters Thrown : Type}.

(** Modelled from the spec: the declaration of the check result is not
    among the sources; it holds the link to the report (if any) and, under
    [diffToPrevious], the changes in order, the affected operations and the
    window. *)
Record DiffToPrevious : Type := mkDiffToPrevious {
  changes : list Change;
  affectedQueries : list AffectedQuery;
  validationConfig : ValidationConfig
}.

Record CheckSchemaResult : Type := mkCheckSchemaResult {
  targetUrl : option string;
  diffToPrevious : DiffToPrevious
}.

(** The argument of [project.engine.checkSchema]. *)
Record CheckSchemaVariables : Type := mkCheckSchemaVariables {
  var_id : option string;
  var_schema : IntrospectionSchema;
  var_tag : option string;
  var_gitContext : option GitContext;
  var_frontend : option string;
  var_historicParameters : option HistoricParameters
}.

(** The context [runTasks] hands back, as [run] reads it. The task assigns
    four of the fields; it never assigns [config], which is there only if
    [runTasks] itself put it there, and is [undefined] ([None]) otherwise. *)
Record TasksOutput : Type := mkTasksOutput {
  gitContext : option GitContext;
  checkSchemaResult : CheckSchemaResult;
  config : option ApolloConfig;
  shouldOutputJson : bool;
  shouldOutputMarkdown : bool
}.

(** What the task assigns to the context. *)
Record Assigned : Type := mkAssigned {
  assigned_gitContext : option GitContext;
  assigned_checkSchemaResult : CheckSchemaResult;
  assigned_shouldOutputJson : bool;
  assigned_shouldOutputMarkdown : bool
}.

(** What is thrown: the command's own [Error], the [TypeError] of reading
    a property of [undefined], or whatever a collaborator throws or rejects
    with. *)
Inductive Exn : Type :=
| Error (message : string)
| TypeError
| Raised (t : Thrown).

(** What the command does to the outside, in order. *)
Inductive Event : Type :=
| ResolveSchema (tag : string)
| GitInfo
| ValidateHistoricParams (params : HistoricFlags)
| CheckSchema (variables : CheckSchemaVariables)
| Log (line : string)
| Table (rows : list Row) (columns : list Column).

(** The collaborators. [gitInfo] is handed the command's logger
    ([gitInfo(this.log)]): what it does is the lines it logs through it,
    and then what it yields or throws. *)
Variable resolveSchema : string -> Thrown + Schema.
Variable gitInfo : list string * (Thrown + option GitContext).
Variable introspectionFromSchema : Schema -> IntrospectionSchema.
Variable validateHistoricParams :
  HistoricFlags -> Thrown + option HistoricParameters.
Variable checkSchema : CheckSchemaVariables -> Thrown + CheckSchemaResult.

(** [chalk.red] and [chalk.yellow]: the terminal's colour wrappers. *)
Variables chalk_red chalk_yellow : string -> string.

(** The two readings of the clock [formatMarkdown] takes, in order, and
    the UTC offset of the local time zone, in minutes, at an instant. *)
Variables now now' : Z.
Variable utcOffset : Z -> Z.

(** The [config] field of the context [runTasks] hands back. *)
Variable contextConfig : option ApolloConfig.

(** *** formatChange *)

Definition formatChange (change : Change) : Row :=
  let color := fun x : string => x in
  let color :=
    if ChangeType_eqb (type change) FAILURE then chalk_red else color in
  let color :=
    if ChangeType_eqb (type change) WARNING then chalk_yellow else color in
  {| row_type := color (ChangeType_value (type change));
     row_code := color (code change);
     row_description := color (description change) |}.

(** *** formatMarkdown *)

Definition isFailure (change : Change) : bool :=
  ChangeType_eqb (type change) FAILURE.

(** The day count; [None] is not-a-number. *)
Definition elapsedDays (vc : ValidationConfig) : option Z :=
  option_map Z.opp
    (moment.diff_days utcOffset
       (moment.add_second (Some now) (from vc))
       (moment.add_second (Some now') (to vc))).

Definition daysText (days : option Z) : string :=
  match days with
  | Some d => if d =? 1 then "day" else Number_toString d ++ " days"
  | None => "NaN days"
  end.

Definition noBreakingText : string := "âœ… Found **no breaking changes**.".

Definition foundBreakingText (breaking operations : string) : string :=
  "âŒ Found **" ++ breaking
  ++ " breaking changes** that would affect **" ++ operations
  ++ " operations**".

Definition breakingText (checkSchemaResult : CheckSchemaResult) : string :=
  let breakingChanges :=
    filter isFailure (changes (diffToPrevious checkSchemaResult)) in
  if (0 <? List.length breakingChanges)%nat
  then foundBreakingText
         (length_toString
            (filter isFailure (changes (diffToPrevious checkSchemaResult))))
         (length_toString
            (affectedQueries (diffToPrevious checkSchemaResult)))
  else noBreakingText.

Definition linkText (url : string) : string :=
  "ðŸ”— [View your service check details](" ++ url ++ ").".

Definition formatMarkdown (checkSchemaResult : CheckSchemaResult)
    (config : ApolloConfig) : string :=
  let days :=
    elapsedDays (validationConfig (diffToPrevious checkSchemaResult)) in
  nl ++ "### Apollo Service Check" ++ nl
  ++ "ðŸ”„ Validated your local schema against schema tag '"
  ++ config_tag config
  ++ "' on service '" ++ config_service_name config ++ "'." ++ nl
  ++ "ðŸ”¢ Compared **"
  ++ length_toString (changes (diffToPrevious checkSchemaResult))
  ++ " schema changes** against operations seen over the **last "
  ++ daysText days
  ++ "**." ++ nl
  ++ breakingText checkSchemaResult
  ++ nl ++ nl
  ++ linkText (template (targetUrl checkSchemaResult))
  ++ nl.

(** *** The JSON report

    The object [{ targetUrl, changes, validationConfig }] that [run] hands
    to [JSON.stringify]. *)

Definition nullable (o : option string) : JSON.value :=
  match o with
  | Some s => JSON.Str s
  | None => JSON.Null
  end.

Definition Change_toJSON (c : Change) : JSON.value :=
  JSON.Object [("type", JSON.Str (ChangeType_value (type c)));
               ("code", JSON.Str (code c));
               ("description", JSON.Str (description c))].

Definition ValidationConfig_toJSON (vc : ValidationConfig) : JSON.value :=
  JSON.Object [("from", JSON.Number (from vc)); ("to", JSON.Number (to vc))].

Definition jsonReport (targetUrl : option string) (changes : list Change)
    (validationConfig : ValidationConfig) : JSON.value :=
  JSON.Object [("targetUrl", nullable targetUrl);
               ("changes", JSON.Array (map Change_toJSON changes));
               ("validationConfig", ValidationConfig_toJSON validationConfig)].

(** *** The command: effects in a trace, failures as [Exn] *)

Definition M : Type -> Type := eitherT Exn (state (list Event)).

Definition emit (e : Event) : M unit :=
  trace <- get ;; put (trace ++ [e])%list.

(** A call to a collaborator: recorded, then it yields or throws. *)
Definition call {A : Type} (e : Event) (result : Thrown + A) : M A :=
  emit e ;;
  match result with
  | inl t => raise (Raised t)
  | inr a => ret a
  end.

Definition log (line : string) : M unit := emit (Log line).

Fixpoint logAll (lines : list string) : M unit :=
  match lines with
  | [] => ret tt
  | line :: rest => log line ;; logAll rest
  end.

(** A call to a collaborator that is handed the logger: recorded, then it
    logs its lines, then it yields or throws. *)
Definition callWithLogger {A : Type} (e : Event)
    (result : list string * (Thrown + A)) : M A :=
  emit e ;;
  logAll (fst result) ;;
  match snd result with
  | inl t => raise (Raised t)
  | inr a => ret a
  end.

Definition table (rows : list Row) (columns : list Column) : M unit :=
  emit (Table rows columns).

(** [a || b] where [b] is a string. *)
Definition js_or_string (a : option string) (b : string) : string :=
  match js_or a (Some b) with
  | Some s => s
  | None => b
  end.

(** The task "Checking service for changes". *)
Definition task (config : ApolloConfig) (flags : Flags) : M Assigned :=
  if negb (truthy (config_name config))
  then raise (Error "No service found to link to Engine")
  else
    let tag :=
      js_or_string (js_or (flag_tag flags) (Some (config_tag config)))
                   "current" in
    schema <- call (ResolveSchema tag) (resolveSchema tag) ;;
    gitContext <- callWithLogger GitInfo gitInfo ;;
    let params :=
      {| hf_validationPeriod := flag_validationPeriod flags;
         hf_queryCountThreshold := flag_queryCountThreshold flags;
         hf_queryCountThresholdPercentage :=
           flag_queryCountThresholdPercentage flags |} in
    historicParameters <-
      call (ValidateHistoricParams params) (validateHistoricParams params) ;;
    let variables :=
      {| var_id := config_name config;
         var_schema := introspectionFromSchema schema;
         var_tag := flag_tag flags;
         var_gitContext := gitContext;
         var_frontend :=
           js_or (flag_frontend flags) (config_engine_frontend config);
         var_historicParameters := historicParameters |} in
    checkSchemaResult <- call (CheckSchema variables) (checkSchema variables) ;;
    ret {| assigned_gitContext := gitContext;
           assigned_checkSchemaResult := checkSchemaResult;
           assigned_shouldOutputJson := flag_json flags;
           assigned_shouldOutputMarkdown := flag_markdown flags |}.

Definition columns : list Column :=
  [ {| key := "type"; label := "Change" |};
    {| key := "code"; label := "Code" |};
    {| key := "description"; label := "Description" |} ].

(** The part of [run] after the tasks: the report and the exit signal.
    [formatMarkdown] reads [config.tag]: on a context without [config]
    that is a [TypeError], thrown before anything is logged. *)
Definition report (ctx : TasksOutput) : M Outcome :=
  let targetUrl := targetUrl (checkSchemaResult ctx) in
  let changes := changes (diffToPrevious (checkSchemaResult ctx)) in
  let validationConfig :=
    validationConfig (diffToPrevious (checkSchemaResult ctx)) in
  let failures := filter isFailure changes in
  if shouldOutputJson ctx then
    log (JSON.stringify (jsonReport targetUrl changes validationConfig)) ;;
    ret Returned
  else if shouldOutputMarkdown ctx then
    match config ctx with
    | Some config =>
        log (formatMarkdown (checkSchemaResult ctx) config) ;;
        ret Returned
    | None => raise TypeError
    end
  else if (List.length changes =? 0)%nat then
    log (nl ++ "No changes present between schemas" ++ nl) ;;
    ret Returned
  else
    log nl ;;
    table (map formatChange changes) columns ;;
    log nl ;;
    (if truthy targetUrl
     then log ("View full details at: " ++ template targetUrl)
     else ret tt) ;;
    if (0 <? List.length failures)%nat then ret Exited else ret Returned.

(** The context after the task: the four fields it assigned, and
    [config] as [runTasks] left it. *)
Definition contextAfter (assigned : Assigned) : TasksOutput :=
  {| gitContext := assigned_gitContext assigned;
     checkSchemaResult := assigned_checkSchemaResult assigned;
     config := contextConfig;
     shouldOutputJson := assigned_shouldOutputJson assigned;
     shouldOutputMarkdown := assigned_shouldOutputMarkdown assigned |}.

(** [run]. Modelled from the spec: [runTasks] (of [ProjectCommand]) is not
    among the sources; the steps are strictly sequential and a failure is
    fatal, so it runs the one task and hands back the context, and a
    failure of the task is a failure of [run]. *)
Definition run (config : ApolloConfig) (flags : Flags) : M Outcome :=
  assigned <- task config flags ;;
  report (contextAfter assigned).

(** Running a computation after a trace, and from the empty trace: what
    it threw or yielded, and what has been done. *)
Definition runFrom {A : Type} (m : M A) (trace : list Event)
    : (Exn + A) * list Event :=
  runState (unEitherT m) trace.

Definition exec {A : Type} (m : M A) : (Exn + A) * list Event :=
  runFrom m [].

(** The tag the schema is resolved with, the arguments of the validation
    and of the check, as [task] builds them. *)
Definition resolvedTag (config : ApolloConfig) (flags : Flags) : string :=
  js_or_string (js_or (flag_tag flags) (Some (config_tag config))) "current".

Definition historicFlags (flags : Flags) : HistoricFlags :=
  {| hf_validationPeriod := flag_validationPeriod flags;
     hf_queryCountThreshold := flag_queryCountThreshold flags;
     hf_queryCountThresholdPercentage :=
       flag_queryCountThresholdPercentage flags |}.

Definition checkVariables (config : ApolloConfig) (flags : Flags)
    (schema : Schema) (git : option GitContext)
    (historic : option HistoricParameters) : CheckSchemaVariables :=
  {| var_id := config_name config;
     var_schema := introspectionFromSchema schema;
     var_tag := flag_tag flags;
     var_gitContext := git;
     var_frontend :=
       js_or (flag_frontend flags) (config_engine_frontend config);
     var_historicParameters := historic |}.

(** An event of the report: a log line or the table. *)
Definition isOutput (e : Event) : bool :=
  match e with
  | Log _ | Table _ _ => true
  | _ => false
  end.

(** A sample result: one FAILURE and one NOTICE over a window of [span]
    seconds, no operation affected. *)
Definition sampleResult (span : Z) : CheckSchemaResult :=
  {| targetUrl := Some "https://engine.example/checks/1";
     diffToPrevious :=
       {| changes :=
            [ {| type := FAILURE; code := "FIELD_REMOVED";
                 description := "field Query.me was removed" |};
              {| type := NOTICE; code := "FIELD_ADDED";
                 description := "field Query.you was added" |} ];
          affectedQueries := [];
          validationConfig := {| from := - span; to := 0 |} |} |}.

(** The day count as the specification words it: the absolute span of
    the window in days, rounded up. *)
Definition specDays (vc : ValidationConfig) : Z :=
  (Z.abs (to vc - from vc) + 86399) / 86400.

(** The Markdown report before its last line, the reference link. *)
Definition markdownBody (checkSchemaResult : CheckSchemaResult)
    (config : ApolloConfig) : string :=
  nl ++ "### Apollo Service Check" ++ nl
  ++ "ðŸ”„ Validated your local schema against schema tag '"
  ++ config_tag config
  ++ "' on service '" ++ config_service_name config ++ "'." ++ nl
  ++ "ðŸ”¢ Compared **"
  ++ length_toString (changes (diffToPrevious checkSchemaResult))
  ++ " schema changes** against operations seen over the **last "
  ++ daysText
       (elapsedDays (validationConfig (diffToPrevious checkSchemaResult)))
  ++ "**." ++ nl
  ++ breakingText checkSchemaResult
  ++ nl ++ nl.

(** *** Reading the JSON report back: each field out of the parsed value *)

Definition ChangeType_ofValue (s : string) : option ChangeType :=
  if (s =? "FAILURE")%string then Some FAILURE
  else if (s =? "NOTICE")%string then Some NOTICE
  else if (s =? "WARNING")%string then Some WARNING
  else None.

Definition Change_ofJSON (v : JSON.value) : option Change :=
  match v with
  | JSON.Object members =>
      match JSON.get "type" members, JSON.get "code" members,
            JSON.get "description" members with
      | Some (JSON.Str t), Some (JSON.Str c), Some (JSON.Str d) =>
          match ChangeType_ofValue t with
          | Some ty => Some (mkChange ty c d)
          | None => None
          end
      | _, _, _ => None
      end
  | _ => None
  end.

Fixpoint Changes_ofJSON (items : list JSON.value) : option (list Change) :=
  match items with
  | [] => Some []
  | v :: vs =>
      match Change_ofJSON v, Changes_ofJSON vs with
      | Some c, Some cs => Some (c :: cs)
      | _, _ => None
      end
  end.

Definition ValidationConfig_ofJSON (v : JSON.value)
    : option ValidationConfig :=
  match v with
  | JSON.Object members =>
      match JSON.get "from" members, JSON.get "to" members with
      | Some (JSON.Number f), Some (JSON.Number t) =>
          Some (mkValidationConfig f t)
      | _, _ => None
      end
  | _ => None
  end.

Definition nullable_ofJSON (v : JSON.value) : option (option string) :=
  match v with
  | JSON.Null => Some None
  | JSON.Str s => Some (Some s)
  | _ => None
  end.

Definition readReport (v : JSON.value)
    : option (option string * list Change * ValidationConfig) :=
  match v with
  | JSON.Object members =>
      match JSON.get "targetUrl" members, JSON.get "changes" members,
            JSON.get "validationConfig" members with
      | Some u, Some (JSON.Array items), Some w =>
          match nullable_ofJSON u, Changes_ofJSON items,
                ValidationConfig_ofJSON w with
          | Some url, Some cs, Some vc => Some (url, cs, vc)
          | _, _, _ => None
          end
      | _, _, _ => None
      end
  | _ => None
  end.

(** A value reads back: after its text at any nesting level, with fuel
    for its size, the reader yields the value and the text that follows. *)
Definition reads_back (v : JSON.value) : Prop :=
  forall level fuel rest,
    (JSON.size v <= fuel)%nat ->
    JSON.ends_number rest = true ->
    JSON.parse_value fuel (JSON.serialize level v ++ rest) = Some (v, rest).

(** The lines the git provider logs, as events. *)
Definition providerLog : list Event := map Log (fst gitInfo).

(** The collaborators [run] calls, and whether an event is a call to one. *)
Inductive Collaborator : Type :=
| SchemaResolver | GitProvider | ParameterValidator | CheckService.

Definition isCallTo (k : Collaborator) (e : Event) : bool :=
  match k, e with
  | SchemaResolver, ResolveSchema _ => true
  | GitProvider, GitInfo => true
  | ParameterValidator, ValidateHistoricParams _ => true
  | CheckService, CheckSchema _ => true
  | _, _ => false
  end.

(** Whether a character occurs in a string. *)
Definition occurs (c : ascii) (s : string) : bool :=
  existsb (Ascii.eqb c) (list_ascii_of_string s).

(** ** Properties *)

(** *** Strings *)

Lemma append_assoc (a b c : string) : (a ++ b) ++ c = a ++ (b ++ c).
Proof. induction a as [| x a IH]; cbn; [reflexivity | now rewrite IH]. Qed.

Lemma append_nil_r (a : string) : a ++ "" = a.
Proof. induction a as [| x a IH]; cbn; [reflexivity | now rewrite IH]. Qed.

Lemma startsWith_append (p s : string) : startsWith p (p ++ s) = true.
Proof.
  induction p as [| x p IH]; cbn; [reflexivity |].
  now rewrite Ascii.eqb_refl, IH.
Qed.

Lemma startsWith_split (p s : string) :
  startsWith p s = true -> exists rest, s = p ++ rest.
Proof.
  revert s. induction p as [| x p IH]; intros s H.
  - exists s. reflexivity.
  - destruct s as [| y s]; [discriminate H |]. cbn in H.
    apply andb_true_iff in H. destruct H as [E H].
    apply Ascii.eqb_eq in E. subst y.
    destruct (IH s H) as [rest ->]. exists rest. reflexivity.
Qed.

Lemma includes_append (a p b : string) : includes p (a ++ p ++ b) = true.
Proof.
  induction a as [| x a IH].
  - cbn [append]. destruct (p ++ b) eqn:E; cbn [includes];
      rewrite <- E, startsWith_append; reflexivity.
  - cbn [append includes]. rewrite IH. apply orb_true_r.
Qed.

Lemma includes_split (p s : string) :
  includes p s = true -> exists a b, s = a ++ p ++ b.
Proof.
  induction s as [| x s IH]; cbn [includes]; intros H.
  - rewrite orb_false_r in H. destruct (startsWith_split _ _ H) as [b E].
    exists "", b. exact E.
  - apply orb_true_iff in H. destruct H as [H | H].
    + destruct (startsWith_split _ _ H) as [b E]. exists "", b. exact E.
    + destruct (IH H) as (a & b & ->). exists (String x a), b. reflexivity.
Qed.

(** The characters of a string. *)
Lemma chars_append (a b : string) :
  list_ascii_of_string (a ++ b)
  = (list_ascii_of_string a ++ list_ascii_of_string b)%list.
Proof. induction a as [| x a IH]; cbn; [reflexivity | now rewrite IH]. Qed.

Lemma all_ascii_append (a b : string) :
  all_ascii (a ++ b) = all_ascii a && all_ascii b.
Proof.
  induction a as [| x a IH]; cbn; [reflexivity |].
  now rewrite IH, andb_assoc.
Qed.

Lemma all_ascii_chars (s : string) (c : ascii) :
  all_ascii s = true -> In c (list_ascii_of_string s) -> is_ascii c = true.
Proof.
  induction s as [| x s IH]; cbn; intros H I; [contradiction |].
  apply andb_true_iff in H. destruct H as [Hx Hs].
  destruct I as [-> | I]; auto.
Qed.

Lemma all_ascii_uint (d : Decimal.uint) :
  all_ascii (NilEmpty.string_of_uint d) = true.
Proof. induction d; cbn; auto. Qed.

Lemma all_ascii_Number (z : Z) : all_ascii (Number_toString z) = true.
Proof.
  unfold Number_toString, NilZero.string_of_int, NilZero.string_of_uint.
  destruct (Z.to_int z) as [d | d]; destruct d; cbn;
    try reflexivity; apply all_ascii_uint.
Qed.

(** A decimal numeral is not empty and does not begin with a letter. *)
Lemma Number_toString_head (z : Z) :
  exists c rest, Number_toString z = String c rest
                 /\ (c = "-"%char \/ JSON.is_digit c = true).
Proof.
  unfold Number_toString, NilZero.string_of_int, NilZero.string_of_uint.
  destruct (Z.to_int z) as [d | d]; destruct d; cbn; eauto 6.
Qed.

Lemma occurs_append (c : ascii) (a b : string) :
  occurs c (a ++ b) = occurs c a || occurs c b.
Proof. unfold occurs. now rewrite chars_append, existsb_app. Qed.

Lemma occurs_ascii (c : ascii) (s : string) :
  is_ascii c = false -> all_ascii s = true -> occurs c s = false.
Proof.
  intros Hc Hs. unfold occurs.
  destruct (existsb _ _) eqn:E; [| reflexivity].
  apply existsb_exists in E. destruct E as (x & I & E).
  apply Ascii.eqb_eq in E. subst x.
  rewrite (all_ascii_chars s c Hs I) in Hc. discriminate Hc.
Qed.

Lemma occurs_includes (c : ascii) (p s : string) :
  includes p s = true -> occurs c p = true -> occurs c s = true.
Proof.
  intros H Hc. destruct (includes_split _ _ H) as (a & b & ->).
  rewrite !occurs_append, Hc. apply orb_true_iff. right. reflexivity.
Qed.

Lemma includes_of_split (p s a b : string) :
  s = a ++ p ++ b -> includes p s = true.
Proof. intros ->. apply includes_append. Qed.

(** *** JSON text: reading back what was written *)

Lemma length_append (a b : string) :
  String.length (a ++ b) = (String.length a + String.length b)%nat.
Proof. induction a as [| x a IH]; cbn; [reflexivity | now rewrite IH]. Qed.

Lemma skip_ws_indent (level : nat) (s : string) :
  JSON.skip_ws (JSON.indent level ++ s) = JSON.skip_ws s.
Proof. induction level as [| l IH]; cbn; [reflexivity | exact IH]. Qed.

Lemma skip_ws_newline_indent (level : nat) (s : string) :
  JSON.skip_ws (nl ++ JSON.indent level ++ s) = JSON.skip_ws s.
Proof. cbn. apply skip_ws_indent. Qed.

Lemma skip_ws_start (c : ascii) (s : string) :
  JSON.is_ws c = false -> JSON.skip_ws (String c s) = String c s.
Proof. intros H. cbn. rewrite H. reflexivity. Qed.

(** One escaped character reads back as the character. *)
Lemma parse_chars_escape (c : ascii) (s : string) :
  JSON.parse_chars (JSON.escape c ++ s)
  = JSON.cons_char c (JSON.parse_chars s).
Proof.
  destruct c as [[] [] [] [] [] [] [] []]; reflexivity.
Qed.

Lemma parse_chars_escape_all (t rest : string) :
  JSON.parse_chars (JSON.escape_all t ++ String JSON.dquote rest)
  = Some (t, rest).
Proof.
  induction t as [| c t IH]; [reflexivity |].
  cbn [JSON.escape_all]. rewrite append_assoc, parse_chars_escape, IH.
  reflexivity.
Qed.

Lemma parse_chars_quote (t rest : string) :
  exists text,
    JSON.quote t ++ rest = String JSON.dquote text
    /\ JSON.parse_chars text = Some (t, rest).
Proof.
  exists (JSON.escape_all t ++ String JSON.dquote rest). split.
  - unfold JSON.quote. cbn [append]. now rewrite append_assoc.
  - apply parse_chars_escape_all.
Qed.

Lemma span_digits_end (rest : string) :
  JSON.ends_number rest = true -> JSON.span_digits rest = ("", rest).
Proof.
  destruct rest as [| c rest]; cbn; [reflexivity |].
  intros H. apply negb_true_iff in H. rewrite H. reflexivity.
Qed.

Lemma span_digits_uint (d : Decimal.uint) (rest : string) :
  JSON.ends_number rest = true ->
  JSON.span_digits (NilEmpty.string_of_uint d ++ rest)
  = (NilEmpty.string_of_uint d, rest).
Proof.
  intros H. induction d; cbn; rewrite ?IHd; try reflexivity.
  apply span_digits_end, H.
Qed.

Lemma span_digits_numeral (d : Decimal.uint) (rest : string) :
  JSON.ends_number rest = true ->
  JSON.span_digits (NilZero.string_of_uint d ++ rest)
  = (NilZero.string_of_uint d, rest).
Proof.
  intros H. unfold NilZero.string_of_uint.
  destruct d; try apply (span_digits_uint _ _ H).
  cbn. rewrite (span_digits_end _ H). reflexivity.
Qed.

Lemma numeral_head (d : Decimal.uint) :
  exists c r, NilZero.string_of_uint d = String c r
              /\ JSON.is_digit c = true.
Proof. destruct d; cbn; eauto. Qed.

Lemma digit_not_minus (c : ascii) :
  JSON.is_digit c = true -> Ascii.eqb c "-" = false.
Proof. destruct c as [[] [] [] [] [] [] [] []]; vm_compute; congruence. Qed.

Lemma parse_number_of_int (i : Decimal.int) (rest : string) :
  i <> Decimal.Pos Decimal.Nil -> i <> Decimal.Neg Decimal.Nil ->
  JSON.ends_number rest = true ->
  Number_toString (Z.of_int i) = NilZero.string_of_int i ->
  JSON.parse_number (NilZero.string_of_int i ++ rest)
  = Some (Z.of_int i, rest).
Proof.
  intros Hp Hn Hr Hc. pose proof (NilZero.isi i Hp Hn) as R.
  unfold JSON.parse_number.
  destruct i as [d | d]; cbn [NilZero.string_of_int] in *.
  - destruct (numeral_head d) as (c & r & E & D).
    rewrite E. cbn [append]. rewrite (digit_not_minus c D).
    change (String c (r ++ rest)) with (String c r ++ rest).
    rewrite <- E, (span_digits_numeral d rest Hr).
    cbn [append]. rewrite R, Hc, String.eqb_refl. reflexivity.
  - cbn [append]. rewrite Ascii.eqb_refl.
    rewrite (span_digits_numeral d rest Hr).
    change ("-" ++ NilZero.string_of_uint d)
      with (String "-" (NilZero.string_of_uint d)).
    rewrite R, Hc, String.eqb_refl. reflexivity.
Qed.

Lemma parse_number_toString (z : Z) (rest : string) :
  JSON.ends_number rest = true ->
  JSON.parse_number (Number_toString z ++ rest) = Some (z, rest).
Proof.
  intros Hr. unfold Number_toString.
  rewrite <- (DecimalZ.of_to z) at 2.
  apply parse_number_of_int; try assumption.
  - destruct z; cbn; try discriminate.
    intros [= H]. exact (DecimalPos.Unsigned.to_uint_nonnil _ H).
  - destruct z; cbn; try discriminate.
    intros [= H]. exact (DecimalPos.Unsigned.to_uint_nonnil _ H).
  - rewrite DecimalZ.of_to. reflexivity.
Qed.

Lemma number_start (c : ascii) :
  c = "-"%char \/ JSON.is_digit c = true ->
  JSON.starts_value c = true
  /\ Ascii.eqb c "n" = false /\ Ascii.eqb c JSON.dquote = false
  /\ Ascii.eqb c "[" = false /\ Ascii.eqb c "{" = false
  /\ Ascii.eqb c "-" || JSON.is_digit c = true.
Proof.
  intros [-> | H]; [repeat split |].
  revert H. destruct c as [[] [] [] [] [] [] [] []]; vm_compute;
    try discriminate; intros _; repeat split.
Qed.

Lemma value_start (c : ascii) :
  JSON.starts_value c = true ->
  JSON.is_ws c = false /\ Ascii.eqb c "]" = false /\ Ascii.eqb c "}" = false.
Proof.
  destruct c as [[] [] [] [] [] [] [] []]; vm_compute;
    try discriminate; intros _; repeat split.
Qed.

Lemma serialize_array level v vs :
  JSON.serialize level (JSON.Array (v :: vs))
  = "[" ++ nl ++ JSON.indent (S level)
    ++ JSON.join ("," ++ nl ++ JSON.indent (S level))
         (map (JSON.serialize (S level)) (v :: vs))
    ++ nl ++ JSON.indent level ++ "]".
Proof. reflexivity. Qed.

Lemma serialize_object level m ms :
  JSON.serialize level (JSON.Object (m :: ms))
  = "{" ++ nl ++ JSON.indent (S level)
    ++ JSON.join ("," ++ nl ++ JSON.indent (S level))
         (map (fun m => JSON.quote (fst m) ++ ": "
                        ++ JSON.serialize (S level) (snd m)) (m :: ms))
    ++ nl ++ JSON.indent level ++ "}".
Proof. reflexivity. Qed.

Lemma serialize_head level v :
  exists c r, JSON.serialize level v = String c r
              /\ JSON.starts_value c = true.
Proof.
  destruct v as [| z | t | [| x l] | [| m l]];
    try (eexists _, _; split; reflexivity).
  cbn [JSON.serialize].
  destruct (Number_toString_head z) as (c & r & E & H).
  exists c, r. split; [exact E |]. apply number_start, H.
Qed.

(** The reader looks at a text only past its leading white space. *)
Lemma parse_value_ws fuel s s' :
  JSON.skip_ws s = JSON.skip_ws s' ->
  JSON.parse_value fuel s = JSON.parse_value fuel s'.
Proof.
  intros H. destruct fuel; [reflexivity |].
  cbn [JSON.parse_value]. rewrite H. reflexivity.
Qed.

Lemma parse_elements_ws fuel s s' :
  JSON.skip_ws s = JSON.skip_ws s' ->
  JSON.parse_elements fuel s = JSON.parse_elements fuel s'.
Proof.
  intros H. destruct fuel; [reflexivity |].
  cbn [JSON.parse_elements]. rewrite (parse_value_ws fuel s s' H).
  reflexivity.
Qed.

Lemma parse_members_ws fuel s s' :
  JSON.skip_ws s = JSON.skip_ws s' ->
  JSON.parse_members fuel s = JSON.parse_members fuel s'.
Proof.
  intros H. destruct fuel; [reflexivity |].
  cbn [JSON.parse_members]. rewrite H. reflexivity.
Qed.

(** Decides the character tests of the reader on known characters. *)
Ltac known_chars :=
  repeat
    (progress
       (repeat match goal with
        | |- context [Ascii.eqb ?a ?b] =>
            tryif is_var a then fail
            else (let v := eval vm_compute in (Ascii.eqb a b) in
                  change (Ascii.eqb a b) with v)
        | |- context [JSON.is_ws ?a] =>
            tryif is_var a then fail
            else (let v := eval vm_compute in (JSON.is_ws a) in
                  change (JSON.is_ws a) with v)
        end;
        cbv iota)).

(** One step of the reader at the start of a number, an array, an object. *)
Lemma parse_value_number fuel c r :
  c = "-"%char \/ JSON.is_digit c = true ->
  JSON.parse_value (S fuel) (String c r)
  = match JSON.parse_number (String c r) with
    | Some (z, r') => Some (JSON.Number z, r')
    | None => None
    end.
Proof.
  intros H. destruct (number_start c H) as (V & H1 & H2 & H3 & H4 & H5).
  destruct (value_start c V) as (W & _ & _).
  cbn [JSON.parse_value]. rewrite (skip_ws_start c r W).
  rewrite H1, H2, H3, H4, H5. reflexivity.
Qed.

Lemma parse_value_array fuel r c r' :
  JSON.skip_ws r = String c r' -> Ascii.eqb c "]" = false ->
  JSON.parse_value (S fuel) (String "[" r)
  = match JSON.parse_elements fuel r with
    | Some (items, r'') => Some (JSON.Array items, r'')
    | None => None
    end.
Proof.
  intros H N. cbn [JSON.parse_value JSON.skip_ws]. known_chars.
  rewrite H, N. reflexivity.
Qed.

Lemma parse_value_object fuel r c r' :
  JSON.skip_ws r = String c r' -> Ascii.eqb c "}" = false ->
  JSON.parse_value (S fuel) (String "{" r)
  = match JSON.parse_members fuel r with
    | Some (members, r'') => Some (JSON.Object members, r'')
    | None => None
    end.
Proof.
  intros H N. cbn [JSON.parse_value JSON.skip_ws]. known_chars.
  rewrite H, N. reflexivity.
Qed.

Lemma join_cons (sep a b : string) (l : list string) :
  JSON.join sep (a :: b :: l) = a ++ sep ++ JSON.join sep (b :: l).
Proof. reflexivity. Qed.

Lemma parse_elements_join level vs :
  Forall reads_back vs ->
  forall v fuel rest,
    reads_back v ->
    (list_sum (map (fun x => S (JSON.size x)) (v :: vs)) <= fuel)%nat ->
    JSON.ends_number rest = true ->
    JSON.parse_elements fuel
      (nl ++ JSON.indent (S level)
       ++ JSON.join ("," ++ nl ++ JSON.indent (S level))
            (map (JSON.serialize (S level)) (v :: vs))
       ++ nl ++ JSON.indent level ++ "]" ++ rest)
    = Some (v :: vs, rest).
Proof.
  induction 1 as [| v' vs Hv' Hvs IH]; intros v fuel rest Hv Hs Hr.
  - cbn [map list_sum fold_right] in Hs. destruct fuel as [| f]; [lia |].
    cbn [JSON.parse_elements map JSON.join].
    rewrite (parse_value_ws f _ _ (skip_ws_newline_indent _ _)).
    rewrite (Hv (S level) f); [| lia | reflexivity].
    rewrite skip_ws_newline_indent.
    cbn [append JSON.skip_ws]. known_chars. reflexivity.
  - cbn [map list_sum fold_right] in Hs. destruct fuel as [| f]; [lia |].
    cbn [JSON.parse_elements map]. rewrite join_cons.
    rewrite !append_assoc.
    rewrite (parse_value_ws f _ _ (skip_ws_newline_indent _ _)).
    rewrite (Hv (S level) f); [| lia | reflexivity].
    cbn [append JSON.skip_ws]. known_chars.
    change (JSON.serialize (S level) v' :: map (JSON.serialize (S level)) vs)
      with (map (JSON.serialize (S level)) (v' :: vs)).
    assert (Hs' : (list_sum (map (fun x => S (JSON.size x)) (v' :: vs))
                   <= f)%nat)
      by (cbn [map list_sum fold_right] in *; lia).
    specialize (IH v' f rest Hv' Hs' Hr).
    match goal with
    | |- context [JSON.parse_elements f ?t] =>
        replace (JSON.parse_elements f t) with (Some (v' :: vs, rest))
          by (symmetry; exact IH)
    end.
    reflexivity.
Qed.

Lemma parse_members_step fuel k v text after next c r :
  JSON.parse_chars text = Some (k, String ":" (String " " after)) ->
  JSON.parse_value fuel after = Some (v, next) ->
  JSON.skip_ws next = String c r ->
  JSON.parse_members (S fuel) (String JSON.dquote text)
  = if Ascii.eqb c ","
    then match JSON.parse_members fuel r with
         | Some (ms, r'') => Some ((k, v) :: ms, r'')
         | None => None
         end
    else if Ascii.eqb c "}" then Some ([(k, v)], r) else None.
Proof.
  intros Hk Hv Hc. cbn [JSON.parse_members JSON.skip_ws]. known_chars.
  rewrite Hk. cbn [JSON.skip_ws]. known_chars.
  rewrite (parse_value_ws fuel (String " " after) after eq_refl), Hv, Hc.
  reflexivity.
Qed.

Lemma parse_members_join level ms :
  Forall (fun m => reads_back (snd m)) ms ->
  forall m fuel rest,
    reads_back (snd m) ->
    (list_sum (map (fun m => S (JSON.size (snd m))) (m :: ms)) <= fuel)%nat ->
    JSON.ends_number rest = true ->
    JSON.parse_members fuel
      (nl ++ JSON.indent (S level)
       ++ JSON.join ("," ++ nl ++ JSON.indent (S level))
            (map (fun m => JSON.quote (fst m) ++ ": "
                           ++ JSON.serialize (S level) (snd m)) (m :: ms))
       ++ nl ++ JSON.indent level ++ "}" ++ rest)
    = Some (m :: ms, rest).
Proof.
  induction 1 as [| m' ms Hm' Hms IH]; intros [k v] fuel rest Hv Hs Hr;
    cbn [fst snd] in *.
  - cbn [map list_sum fold_right snd] in Hs. destruct fuel as [| f]; [lia |].
    rewrite (parse_members_ws (S f) _ _ (skip_ws_newline_indent _ _)).
    cbn [map JSON.join fst snd]. rewrite !append_assoc.
    destruct (parse_chars_quote k
                (": " ++ JSON.serialize (S level) v
                 ++ nl ++ JSON.indent level ++ "}" ++ rest))
      as (text & E & Hk).
    rewrite E.
    rewrite (parse_members_step f k v text
               (JSON.serialize (S level) v
                ++ nl ++ JSON.indent level ++ "}" ++ rest)
               (nl ++ JSON.indent level ++ "}" ++ rest) "}" rest Hk);
      [reflexivity | apply Hv; [lia | reflexivity] |].
    apply skip_ws_newline_indent.
  - cbn [map list_sum fold_right snd] in Hs. destruct fuel as [| f]; [lia |].
    rewrite (parse_members_ws (S f) _ _ (skip_ws_newline_indent _ _)).
    cbn [map]. rewrite join_cons. cbn [fst snd]. rewrite !append_assoc.
    match goal with
    | |- JSON.parse_members _
           (JSON.quote k ++ ": " ++ JSON.serialize _ v ++ "," ++ ?more) = _ =>
        destruct (parse_chars_quote k
                    (": " ++ JSON.serialize (S level) v ++ "," ++ more))
          as (text & E & Hk);
        rewrite E;
        rewrite (parse_members_step f k v text
                   (JSON.serialize (S level) v ++ "," ++ more)
                   ("," ++ more) "," more Hk);
          [| apply Hv; [lia | reflexivity] | reflexivity]
    end.
    known_chars.
    assert (Hs' : (list_sum (map (fun m => S (JSON.size (snd m))) (m' :: ms))
                   <= f)%nat)
      by (cbn [map list_sum fold_right] in *; lia).
    specialize (IH m' f rest Hm' Hs' Hr).
    match goal with
    | |- context [JSON.parse_members f ?t] =>
        replace (JSON.parse_members f t) with (Some (m' :: ms, rest))
          by (symmetry; exact IH)
    end.
    reflexivity.
Qed.

Lemma join_head sep a l after c r :
  a = String c r -> exists r', JSON.join sep (a :: l) ++ after = String c r'.
Proof. intros ->. destruct l; cbn; eexists; reflexivity. Qed.

Lemma size_array items :
  JSON.size (JSON.Array items)
  = S (list_sum (map (fun x => S (JSON.size x)) items)).
Proof. reflexivity. Qed.

Lemma size_object members :
  JSON.size (JSON.Object members)
  = S (list_sum (map (fun m => S (JSON.size (snd m))) members)).
Proof. reflexivity. Qed.

(** Every value reads back from its text. *)
Lemma serialize_reads_back : forall v, reads_back v.
Proof.
  apply JSON.value_induction; unfold reads_back.
  - intros level fuel rest Hs Hr.
    destruct fuel as [| f]; [cbn in Hs; lia | reflexivity].
  - intros z level fuel rest Hs Hr.
    destruct fuel as [| f]; [cbn in Hs; lia |].
    cbn [JSON.serialize].
    destruct (Number_toString_head z) as (c & r & E & H).
    rewrite E. cbn [append]. rewrite (parse_value_number f c _ H).
    change (String c (r ++ rest)) with (String c r ++ rest).
    rewrite <- E, (parse_number_toString z rest Hr). reflexivity.
  - intros t level fuel rest Hs Hr.
    destruct fuel as [| f]; [cbn in Hs; lia |].
    cbn [JSON.serialize].
    destruct (parse_chars_quote t rest) as (text & E & Hk).
    rewrite E. cbn [JSON.parse_value JSON.skip_ws]. known_chars.
    rewrite Hk. reflexivity.
  - intros items HF level fuel rest Hs Hr.
    destruct items as [| v vs].
    { destruct fuel as [| f]; [cbn in Hs; lia | reflexivity]. }
    rewrite size_array in Hs.
    destruct fuel as [| f]; [lia |].
    rewrite serialize_array, !append_assoc. cbn [map].
    destruct (serialize_head (S level) v) as (c & r & E & Hc).
    destruct (value_start c Hc) as (W & N1 & N2).
    match goal with
    | |- JSON.parse_value _
           ("[" ++ nl ++ ?ind ++ JSON.join ?sep (?a :: ?l) ++ ?after) = _ =>
        destruct (join_head sep a l after c r E) as (r' & E');
        change ("[" ++ nl ++ ind ++ JSON.join sep (a :: l) ++ after)
          with (String "[" (nl ++ ind ++ JSON.join sep (a :: l) ++ after));
        rewrite (parse_value_array f _ c r');
          [| rewrite skip_ws_newline_indent, E'; apply skip_ws_start, W
           | exact N1]
    end.
    inversion HF as [| ? ? Hv Hvs]; subst.
    change (JSON.serialize (S level) v :: map (JSON.serialize (S level)) vs)
      with (map (JSON.serialize (S level)) (v :: vs)).
    rewrite (parse_elements_join level vs Hvs v f rest Hv);
      [reflexivity | | exact Hr].
    lia.
  - intros members HF level fuel rest Hs Hr.
    destruct members as [| m ms].
    { destruct fuel as [| f]; [cbn in Hs; lia | reflexivity]. }
    rewrite size_object in Hs.
    destruct fuel as [| f]; [lia |].
    rewrite serialize_object, !append_assoc.
    match goal with
    | |- JSON.parse_value _
           ("{" ++ nl ++ ?ind ++ JSON.join ?sep ?l ++ ?after) = _ =>
        change ("{" ++ nl ++ ind ++ JSON.join sep l ++ after)
          with (String "{" (nl ++ ind ++ JSON.join sep l ++ after));
        rewrite (parse_value_object f _ JSON.dquote
                   (match JSON.join sep l ++ after with
                    | String _ r' => r'
                    | EmptyString => EmptyString
                    end));
          [| rewrite skip_ws_newline_indent | reflexivity]
    end.
    + inversion HF as [| ? ? Hv Hvs]; subst.
      rewrite (parse_members_join level ms Hvs m f rest Hv);
        [reflexivity | | exact Hr].
      lia.
    + cbn [map]. destruct ms; cbn [JSON.join JSON.quote append map];
        reflexivity.
Qed.

(** The length of the text is fuel enough. *)
Lemma join_length {A : Type} (sz : A -> nat) (txt : A -> string) sep l :
  Forall (fun x => (sz x <= String.length (txt x))%nat) l ->
  (1 <= String.length sep)%nat ->
  (list_sum (map (fun x => S (sz x)) l)
   <= String.length (JSON.join sep (map txt l)) + 1)%nat.
Proof.
  intros H Hsep. induction H as [| x l Hx Hl IH]; [cbn; lia |].
  destruct l as [| y l].
  - cbn. lia.
  - cbn [map] in *. rewrite join_cons, !length_append.
    cbn [list_sum fold_right] in *. lia.
Qed.

Lemma size_le_length : forall v level,
  (JSON.size v <= String.length (JSON.serialize level v))%nat.
Proof.
  apply (JSON.value_induction
           (fun v => forall level,
                (JSON.size v <= String.length (JSON.serialize level v))%nat)).
  - intros level. cbn. lia.
  - intros z level. cbn [JSON.serialize JSON.size].
    destruct (Number_toString_head z) as (c & r & E & _). rewrite E. cbn. lia.
  - intros t level. cbn. lia.
  - intros items HF level. destruct items as [| v vs]; [cbn; lia |].
    rewrite size_array, serialize_array, !length_append.
    pose proof (join_length JSON.size (JSON.serialize (S level))
                  ("," ++ nl ++ JSON.indent (S level)) (v :: vs)) as J.
    cbn [String.length append] in *.
    assert (F : Forall (fun x => (JSON.size x
                 <= String.length (JSON.serialize (S level) x))%nat) (v :: vs)).
    { revert HF. apply Forall_impl. intros a Ha. apply Ha. }
    specialize (J F ltac:(lia)). lia.
  - intros members HF level. destruct members as [| m ms]; [cbn; lia |].
    rewrite size_object, serialize_object, !length_append.
    pose proof (join_length (fun m => JSON.size (snd m))
                  (fun m => JSON.quote (fst m) ++ ": "
                            ++ JSON.serialize (S level) (snd m))
                  ("," ++ nl ++ JSON.indent (S level)) (m :: ms)) as J.
    cbn [String.length append] in *.
    assert (F : Forall (fun m => (JSON.size (snd m)
                 <= String.length (JSON.quote (fst m) ++ ": "
                      ++ JSON.serialize (S level) (snd m)))%nat) (m :: ms)).
    { revert HF. apply Forall_impl. intros a Ha.
      rewrite !length_append. specialize (Ha (S level)). lia. }
    specialize (J F ltac:(lia)). lia.
Qed.

(** [JSON.parse(JSON.stringify(v, null, 2))] is [v]. *)
Lemma parse_stringify (v : JSON.value) :
  JSON.parse (JSON.stringify v) = Some v.
Proof.
  unfold JSON.parse, JSON.stringify.
  rewrite <- (append_nil_r (JSON.serialize 0 v)) at 2.
  rewrite (serialize_reads_back v 0%nat _ ""); [reflexivity | | reflexivity].
  apply size_le_length.
Qed.

(** *** Running the command *)

Lemma runFrom_bind {A B : Type} (m : M A) (f : A -> M B) trace :
  runFrom (bind m f) trace =
  match runFrom m trace with
  | (inl e, trace') => (inl e, trace')
  | (inr a, trace') => runFrom (f a) trace'
  end.
Proof.
  unfold runFrom. cbn.
  destruct (runState (unEitherT m) trace) as [[e | a] trace']; reflexivity.
Qed.

Lemma runFrom_call {A : Type} (e : Event) (result : Thrown + A) trace :
  runFrom (call e result) trace =
  match result with
  | inl t => (inl (Raised t), trace ++ [e])
  | inr a => (inr a, trace ++ [e])
  end%list.
Proof. destruct result; reflexivity. Qed.

Lemma runFrom_log line trace :
  runFrom (log line) trace = (inr tt, trace ++ [Log line])%list.
Proof. reflexivity. Qed.

Lemma runFrom_table rows cols trace :
  runFrom (table rows cols) trace = (inr tt, trace ++ [Table rows cols])%list.
Proof. reflexivity. Qed.

Lemma runFrom_ret {A : Type} (a : A) trace :
  runFrom (ret a) trace = (inr a, trace).
Proof. reflexivity. Qed.

Lemma runFrom_raise {A : Type} (e : Exn) trace :
  runFrom (raise e : M A) trace = (inl e, trace).
Proof. reflexivity. Qed.

Ltac step :=
  rewrite ?runFrom_bind, ?runFrom_call, ?runFrom_log, ?runFrom_table,
    ?runFrom_ret, ?runFrom_raise; cbv beta iota.

Lemma runFrom_logAll lines trace :
  runFrom (logAll lines) trace = (inr tt, trace ++ map Log lines)%list.
Proof.
  revert trace. induction lines as [| line lines IH]; intros trace.
  - cbn [logAll map]. step. rewrite app_nil_r. reflexivity.
  - cbn [logAll map]. repeat step. rewrite IH, <- app_assoc. reflexivity.
Qed.

Lemma runFrom_callWithLogger {A : Type} (e : Event)
    (result : list string * (Thrown + A)) trace :
  runFrom (callWithLogger e result) trace =
  match snd result with
  | inl t => (inl (Raised t), trace ++ [e] ++ map Log (fst result))
  | inr a => (inr a, trace ++ [e] ++ map Log (fst result))
  end%list.
Proof.
  unfold callWithLogger. rewrite runFrom_bind.
  change (runFrom (emit e) trace)
    with (@inr Exn unit tt, (trace ++ [e])%list).
  cbv beta iota. rewrite runFrom_bind, runFrom_logAll. cbv beta iota.
  rewrite <- app_assoc.
  destruct (snd result); reflexivity.
Qed.

(** What [task] does, collaborator by collaborator. *)
Lemma runFrom_task config flags trace :
  runFrom (task config flags) trace =
  if truthy (config_name config) then
    let tag := resolvedTag config flags in
    match resolveSchema tag with
    | inl t => (inl (Raised t), trace ++ [ResolveSchema tag])
    | inr schema =>
      match snd gitInfo with
      | inl t =>
          (inl (Raised t),
           trace ++ [ResolveSchema tag; GitInfo] ++ providerLog)
      | inr git =>
        let params := historicFlags flags in
        match validateHistoricParams params with
        | inl t =>
            (inl (Raised t),
             trace ++ [ResolveSchema tag; GitInfo] ++ providerLog
             ++ [ValidateHistoricParams params])
        | inr historic =>
          let variables := checkVariables config flags schema git historic in
          match checkSchema variables with
          | inl t =>
              (inl (Raised t),
               trace ++ [ResolveSchema tag; GitInfo] ++ providerLog
               ++ [ValidateHistoricParams params; CheckSchema variables])
          | inr result =>
              (inr {| assigned_gitContext := git;
                      assigned_checkSchemaResult := result;
                      assigned_shouldOutputJson := flag_json flags;
                      assigned_shouldOutputMarkdown := flag_markdown flags |},
               trace ++ [ResolveSchema tag; GitInfo] ++ providerLog
               ++ [ValidateHistoricParams params; CheckSchema variables])
          end
        end
      end
    end%list
  else (inl (Error "No service found to link to Engine"), trace).
Proof.
  unfold task, resolvedTag, historicFlags, checkVariables, providerLog.
  destruct (truthy (config_name config)); cbn [negb]; [| reflexivity].
  step. destruct (resolveSchema _) as [t | schema]; cbv beta iota;
    [reflexivity |].
  rewrite runFrom_bind, runFrom_callWithLogger.
  destruct (snd gitInfo) as [t | git]; cbv beta iota;
    [rewrite <- !app_assoc; reflexivity |].
  step. destruct (validateHistoricParams _) as [t | historic]; cbv beta iota;
    [rewrite <- !app_assoc; reflexivity |].
  step. destruct (checkSchema _) as [t | result]; cbv beta iota;
    rewrite <- !app_assoc; reflexivity.
Qed.

Lemma exec_run config flags :
  exec (run config flags) =
  match exec (task config flags) with
  | (inl e, trace) => (inl e, trace)
  | (inr assigned, trace) => runFrom (report (contextAfter assigned)) trace
  end.
Proof. unfold exec, run. apply runFrom_bind. Qed.

(** The report does the same after any trace: what is said below of
    [report] alone holds of it at the end of [run]. *)
Lemma runFrom_report_exec ctx trace :
  runFrom (report ctx) trace
  = (fst (exec (report ctx)), (trace ++ snd (exec (report ctx)))%list).
Proof.
  unfold exec, report.
  destruct (shouldOutputJson ctx); [repeat step; reflexivity |].
  destruct (shouldOutputMarkdown ctx).
  { destruct (config ctx); repeat step; cbn [fst snd];
      rewrite ?app_nil_r; reflexivity. }
  destruct (List.length _ =? 0)%nat; [repeat step; reflexivity |].
  repeat step.
  destruct (truthy _); repeat step;
    destruct (0 <? _)%nat; repeat step; cbn [fst snd app];
    rewrite <- ?app_assoc; reflexivity.
Qed.

(** The report only prints: log lines and the table. *)
Lemma report_output ctx :
  forallb isOutput (snd (exec (report ctx))) = true.
Proof.
  unfold exec, report.
  destruct (shouldOutputJson ctx); [repeat step; reflexivity |].
  destruct (shouldOutputMarkdown ctx).
  { destruct (config ctx); repeat step; reflexivity. }
  destruct (List.length _ =? 0)%nat; [repeat step; reflexivity |].
  repeat step.
  destruct (truthy _); repeat step;
    destruct (0 <? _)%nat; repeat step; reflexivity.
Qed.

Lemma providerLog_output : forallb isOutput providerLog = true.
Proof.
  unfold providerLog. induction (fst gitInfo) as [| l ls IH];
    [reflexivity | exact IH].
Qed.

Lemma run_after_task config flags assigned trace :
  exec (task config flags) = (inr assigned, trace) ->
  exec (run config flags)
  = (fst (exec (report (contextAfter assigned))),
     (trace ++ snd (exec (report (contextAfter assigned))))%list).
Proof.
  intros E. rewrite exec_run, E. apply runFrom_report_exec.
Qed.

(** *** The report and the exit signal *)

(** In table mode the command signals failure exactly when a change is a
    FAILURE. *)
Lemma report_table_outcome git config result :
  fst (exec (report (mkTasksOutput git result config false false))) =
  inr (if existsb isFailure (changes (diffToPrevious result))
       then Exited else Returned).
Proof.
  unfold exec, report. cbn [shouldOutputJson shouldOutputMarkdown
    checkSchemaResult targetUrl].
  destruct (changes (diffToPrevious result)) as [| c cs] eqn:E.
  { reflexivity. }
  cbn [List.length Nat.eqb]. repeat step.
  assert (L : (0 <? List.length (filter isFailure (c :: cs)))%nat
              = existsb isFailure (c :: cs)).
  { generalize (c :: cs). intros l. induction l as [| x l IH].
    - reflexivity.
    - cbn [filter existsb]. destruct (isFailure x); [reflexivity | exact IH]. }
  destruct (truthy _); repeat step; rewrite L;
    destruct (existsb isFailure (c :: cs)); reflexivity.
Qed.

(** C1 (what the command does where the exit status should be non-zero in
    every mode): with a FAILURE among the changes, the JSON report is logged
    and [run] returns without the exit signal, whatever the context holds
    as [config]; so does the Markdown report on a context that holds a
    [config] (on one without, it throws the [TypeError] instead); only the
    table path signals failure. *)
Theorem C1_json_and_markdown_return_despite_failure :
  forall git ctxConfig config url cd ds cs aq vc,
    let result :=
      mkCheckSchemaResult url
        (mkDiffToPrevious (mkChange FAILURE cd ds :: cs) aq vc) in
    fst (exec (report (mkTasksOutput git result ctxConfig true false)))
      = inr Returned
    /\ fst (exec (report (mkTasksOutput git result (Some config) false true)))
      = inr Returned
    /\ fst (exec (report (mkTasksOutput git result None false true)))
      = inl TypeError
    /\ fst (exec (report (mkTasksOutput git result ctxConfig false false)))
      = inr Exited.
Proof.
  intros. split; [reflexivity | split; [reflexivity | split; [reflexivity |]]].
  rewrite report_table_outcome. reflexivity.
Qed.

(** C7: in table mode, with no changes, the command logs the one line
    saying that no changes are present, prints no table and returns. *)
Theorem C7_table_mode_empty_changes :
  forall git config url aq vc,
    exec (report (mkTasksOutput git
                    (mkCheckSchemaResult url (mkDiffToPrevious [] aq vc))
                    config false false))
    = (inr Returned,
       [Log (nl ++ "No changes present between schemas" ++ nl)]).
Proof. reflexivity. Qed.

(** C8: in table mode, with at least one change, the command prints one
    table with a row per change, in order, under the columns Change, Code
    and Description; each cell of a FAILURE row went through [chalk.red],
    each cell of a WARNING row through [chalk.yellow], and the cells of a
    NOTICE row are the change's own strings. *)
Theorem C8_table_mode_rows :
  forall git config url c cs aq vc,
    let all := c :: cs in
    let result := mkCheckSchemaResult url (mkDiffToPrevious all aq vc) in
    let rows := map formatChange all in
    (exists tail,
        snd (exec (report (mkTasksOutput git result config false false)))
        = ([Log nl; Table rows columns; Log nl] ++ tail)%list
        /\ forall r k, ~ In (Table r k) tail)
    /\ List.length rows = List.length all
    /\ (forall i x, nth_error all i = Some x ->
                    nth_error rows i = Some (formatChange x))
    /\ map label columns = ["Change"; "Code"; "Description"]
    /\ map key columns = ["type"; "code"; "description"]
    /\ (forall cd ds,
          formatChange (mkChange FAILURE cd ds)
          = mkRow (chalk_red "FAILURE") (chalk_red cd) (chalk_red ds))
    /\ (forall cd ds,
          formatChange (mkChange WARNING cd ds)
          = mkRow (chalk_yellow "WARNING") (chalk_yellow cd) (chalk_yellow ds))
    /\ (forall cd ds,
          formatChange (mkChange NOTICE cd ds) = mkRow "NOTICE" cd ds).
Proof.
  intros. repeat split.
  - unfold exec, report.
    cbn [shouldOutputJson shouldOutputMarkdown checkSchemaResult
         diffToPrevious changes targetUrl result all List.length Nat.eqb].
    repeat step.
    destruct (truthy url); repeat step;
      destruct (0 <? _)%nat; repeat step; cbn [snd app].
    + eexists [_]. split; [reflexivity |].
      intros r k [H | []]; discriminate H.
    + eexists [_]. split; [reflexivity |].
      intros r k [H | []]; discriminate H.
    + exists []. split; [reflexivity |]. intros r k [].
    + exists []. split; [reflexivity |]. intros r k [].
  - apply length_map.
  - intros i x H. unfold rows. rewrite nth_error_map, H. reflexivity.
Qed.

(** *** The JSON report *)

Lemma ChangeType_ofValue_value (t : ChangeType) :
  ChangeType_ofValue (ChangeType_value t) = Some t.
Proof. destruct t; reflexivity. Qed.

Lemma Change_ofJSON_toJSON (c : Change) :
  Change_ofJSON (Change_toJSON c) = Some c.
Proof.
  destruct c as [t cd ds]. unfold Change_ofJSON, Change_toJSON.
  cbn [JSON.get type code description String.eqb Ascii.eqb Bool.eqb].
  rewrite ChangeType_ofValue_value. reflexivity.
Qed.

Lemma Changes_ofJSON_map (cs : list Change) :
  Changes_ofJSON (map Change_toJSON cs) = Some cs.
Proof.
  induction cs as [| c cs IH]; [reflexivity |].
  cbn [map Changes_ofJSON]. rewrite Change_ofJSON_toJSON, IH. reflexivity.
Qed.

Lemma readReport_jsonReport url cs vc :
  readReport (jsonReport url cs vc) = Some (url, cs, vc).
Proof.
  unfold readReport, jsonReport.
  cbn [JSON.get String.eqb Ascii.eqb Bool.eqb].
  rewrite Changes_ofJSON_map.
  destruct url, vc; reflexivity.
Qed.

(** C6: in JSON mode the command logs one text; the text parses as JSON,
    to an object with exactly the keys targetUrl, changes and
    validationConfig; every change of the result is in it, in order, as an
    object with exactly its type, code and description; and reading the
    fields back gives the targetUrl, the changes and the window of the
    result. *)
Theorem C6_json_report_round_trip :
  forall git result config asMarkdown,
    let url := targetUrl result in
    let all := changes (diffToPrevious result) in
    let window := validationConfig (diffToPrevious result) in
    exists text document,
      exec (report (mkTasksOutput git result config true asMarkdown))
      = (inr Returned, [Log text])
      /\ JSON.parse text = Some document
      /\ JSON.keys document = ["targetUrl"; "changes"; "validationConfig"]
      /\ JSON.get "changes" (match document with
                             | JSON.Object members => members
                             | _ => []
                             end)
         = Some (JSON.Array (map Change_toJSON all))
      /\ (forall c,
            JSON.keys (Change_toJSON c) = ["type"; "code"; "description"]
            /\ Change_ofJSON (Change_toJSON c) = Some c)
      /\ readReport document = Some (url, all, window).
Proof.
  intros git result config asMarkdown url all window.
  exists (JSON.stringify (jsonReport url all window)),
         (jsonReport url all window).
  split; [reflexivity |].
  split; [apply parse_stringify |].
  split; [reflexivity |].
  split; [reflexivity |].
  split; [| apply readReport_jsonReport].
  intros c. split; [reflexivity | apply Change_ofJSON_toJSON].
Qed.

(** *** The Markdown report *)

Lemma add_second_valid (ms n : Z) :
  moment.valid (ms + n * 1000) = true ->
  moment.add_second (Some ms) n = Some (ms + n * 1000).
Proof.
  intros H. unfold moment.add_second, moment.at_instant.
  destruct (Z.eqb_spec (n * 1000) 0) as [E | _].
  - rewrite E, Z.add_0_r. reflexivity.
  - rewrite H. reflexivity.
Qed.

Lemma elapsedDays_whole_days (vc : ValidationConfig) :
  from vc <= to vc ->
  0 <= now' - now < 1000 ->
  moment.valid (now + from vc * 1000) = true ->
  moment.valid (now' + to vc * 1000) = true ->
  utcOffset (now + from vc * 1000) = utcOffset (now' + to vc * 1000) ->
  elapsedDays vc = Some ((to vc - from vc) / 86400).
Proof.
  intros Hw Hc Va Vb Ho. unfold elapsedDays.
  rewrite (add_second_valid _ _ Va), (add_second_valid _ _ Vb).
  unfold moment.diff_days. rewrite Ho, Z.sub_diag, Z.mul_0_l, Z.sub_0_r.
  cbn [option_map]. f_equal.
  set (d := to vc - from vc).
  replace (now + from vc * 1000 - (now' + to vc * 1000))
    with (- (d * 1000 + (now' - now))) by (unfold d; lia).
  rewrite Z.quot_opp_l by lia. rewrite Z.opp_involutive.
  rewrite Z.quot_div_nonneg by lia.
  change 86400000 with (1000 * 86400).
  rewrite <- Z.div_div by lia.
  f_equal. symmetry. apply Z.div_unique with (r := now' - now); lia.
Qed.

Lemma daysText_singular (days : option Z) :
  daysText days = "day" <-> days = Some 1.
Proof.
  unfold daysText. destruct days as [d |]; [| split; discriminate].
  destruct (Z.eqb_spec d 1) as [E | N]; split; auto.
  - intros _. rewrite E. reflexivity.
  - intros H. exfalso.
    destruct (Number_toString_head d) as (c & rest & E & Hc).
    rewrite E in H. cbn in H. injection H as Hd Hr.
    subst c. destruct Hc as [Hc | Hc]; discriminate Hc.
  - intros [= E]. contradiction.
Qed.

(** C3 (amended): for a window with [from <= to] that is under 2^26 days,
    when the instants [from] and [to] seconds from the two readings of the
    clock are valid dates at one UTC offset of the local zone, and the
    second reading is not before the first and less than a second after
    it, the Markdown report gives the number of whole days in [to - from]
    (rounded down, not up); the count is not negative; the report says
    "last day" exactly when the count is 1 and "last N days" otherwise. *)
Theorem C3_markdown_whole_days_elapsed :
  forall result config,
    let vc := validationConfig (diffToPrevious result) in
    let days := (to vc - from vc) / 86400 in
    from vc <= to vc ->
    (to vc - from vc + 1) * 1000 <= moment.exact_span ->
    0 <= now' - now < 1000 ->
    moment.valid (now + from vc * 1000) = true ->
    moment.valid (now' + to vc * 1000) = true ->
    utcOffset (now + from vc * 1000) = utcOffset (now' + to vc * 1000) ->
    elapsedDays vc = Some days
    /\ 0 <= days
    /\ includes ("**last " ++ daysText (elapsedDays vc) ++ "**.")
                (formatMarkdown result config) = true
    /\ (daysText (elapsedDays vc) = "day" <-> days = 1)
    /\ (days <> 1 ->
        daysText (elapsedDays vc) = Number_toString days ++ " days").
Proof.
  intros result config vc days Hw Hs Hc Va Vb Ho.
  assert (E : elapsedDays vc = Some days)
    by (apply elapsedDays_whole_days; assumption).
  split; [exact E |]. split; [apply Z.div_pos; lia |].
  split; [| split].
  - unfold formatMarkdown. fold vc.
    eapply includes_of_split with
      (a := nl ++ "### Apollo Service Check" ++ nl
            ++ "ðŸ”„ Validated your local schema against schema tag '"
            ++ config_tag config
            ++ "' on service '" ++ config_service_name config ++ "'." ++ nl
            ++ "ðŸ”¢ Compared **"
            ++ length_toString (changes (diffToPrevious result))
            ++ " schema changes** against operations seen over the ").
    rewrite !append_assoc. reflexivity.
  - rewrite daysText_singular, E. split; [intros [= H]; exact H |].
    intros ->. reflexivity.
  - intros N. rewrite E. unfold daysText.
    destruct (Z.eqb_spec days 1); [contradiction | reflexivity].
Qed.

Lemma breaking_count_test (l : list Change) :
  (0 <? List.length (filter isFailure l))%nat = true
  <-> List.length (filter isFailure l) <> 0%nat.
Proof. rewrite Nat.ltb_lt. lia. Qed.

(** The changes [formatMarkdown] counts as breaking are those whose type
    is FAILURE. *)
Lemma failures_counted (l : list Change) :
  List.length (filter isFailure l)
  = count_occ ChangeType_eq_dec (map type l) FAILURE.
Proof.
  induction l as [| c l IH]; [reflexivity |].
  cbn [filter map count_occ]. unfold isFailure at 1.
  destruct (ChangeType_eq_dec (type c) FAILURE) as [E | N].
  - rewrite E. cbn [ChangeType_eqb List.length]. rewrite IH. reflexivity.
  - destruct (type c); try contradiction; cbn [ChangeType_eqb]; exact IH.
Qed.

Lemma breakingText_includes result config :
  includes (breakingText result) (formatMarkdown result config) = true.
Proof.
  unfold formatMarkdown.
  eapply includes_of_split with
    (a := nl ++ "### Apollo Service Check" ++ nl
          ++ "ðŸ”„ Validated your local schema against schema tag '"
          ++ config_tag config
          ++ "' on service '" ++ config_service_name config ++ "'." ++ nl
          ++ "ðŸ”¢ Compared **"
          ++ length_toString (changes (diffToPrevious result))
          ++ " schema changes** against operations seen over the **last "
          ++ daysText (elapsedDays (validationConfig (diffToPrevious result)))
          ++ "**." ++ nl).
  rewrite !append_assoc. reflexivity.
Qed.

Lemma all_ascii_daysText (days : option Z) : all_ascii (daysText days) = true.
Proof.
  unfold daysText. destruct days as [d |]; [| reflexivity].
  destruct (d =? 1); [reflexivity |].
  rewrite all_ascii_append, all_ascii_Number. reflexivity.
Qed.

(** A byte that is not ASCII occurs in the report, for an ASCII tag,
    service name and link, only where the template has it: in the three
    fixed marks or in the statement on breaking changes. *)
Lemma occurs_in_report (marker : ascii) result config :
  is_ascii marker = false ->
  all_ascii (config_tag config) = true ->
  all_ascii (config_service_name config) = true ->
  all_ascii (template (targetUrl result)) = true ->
  occurs marker (formatMarkdown result config)
  = occurs marker "ðŸ”„ðŸ”¢ðŸ”—" || occurs marker (breakingText result).
Proof.
  intros A Ht Hn Hu. unfold formatMarkdown, linkText, length_toString.
  rewrite !occurs_append.
  rewrite (occurs_ascii marker _ A Ht), (occurs_ascii marker _ A Hn),
    (occurs_ascii marker _ A Hu),
    (occurs_ascii marker _ A (all_ascii_Number _)),
    (occurs_ascii marker _ A (all_ascii_daysText _)).
  assert (L : forall s, all_ascii s = true -> occurs marker s = false)
    by (intros s Hs; apply occurs_ascii; assumption).
  rewrite (L nl), (L "### Apollo Service Check"), (L "' on service '"),
    (L "'."), (L "**."), (L ")."); try reflexivity.
  rewrite (L " schema changes** against operations seen over the **last ")
    by reflexivity.
  cbn [orb]. rewrite !orb_false_r.
  destruct marker as [[] [] [] [] [] [] [] []]; try discriminate A;
    destruct (occurs _ (breakingText result)); reflexivity.
Qed.

(** C4: when no change has type FAILURE the Markdown report contains the
    sentence "Found **no breaking changes**."; otherwise it contains the
    sentence "Found **N breaking changes** that would affect **M
    operations**", N the number of changes whose type is FAILURE and M the
    number of affected operations. When the tag, the service name and the
    link are ASCII, the report contains the first sentence exactly when no
    change is a FAILURE, and the opening of the second exactly when one
    is. *)
Theorem C4_markdown_breaking_statement :
  forall result config,
    let failures :=
      count_occ ChangeType_eq_dec
        (map type (changes (diffToPrevious result))) FAILURE in
    let operations :=
      List.length (affectedQueries (diffToPrevious result)) in
    let report := formatMarkdown result config in
    (failures = 0%nat ->
     includes "âœ… Found **no breaking changes**." report = true)
    /\ (failures <> 0%nat ->
        includes ("âŒ Found **" ++ Number_toString (Z.of_nat failures)
                  ++ " breaking changes** that would affect **"
                  ++ Number_toString (Z.of_nat operations)
                  ++ " operations**")
                 report = true)
    /\ (all_ascii (config_tag config) = true ->
        all_ascii (config_service_name config) = true ->
        all_ascii (template (targetUrl result)) = true ->
        (includes "âœ… Found **no breaking changes**." report = true
         <-> failures = 0%nat)
        /\ (includes "âŒ Found **" report = true <-> failures <> 0%nat)).
Proof.
  intros result config failures operations report.
  assert (Z0 : failures = 0%nat ->
               breakingText result = "âœ… Found **no breaking changes**.").
  { intros E. unfold breakingText. rewrite failures_counted.
    fold failures. rewrite E. reflexivity. }
  assert (P : failures <> 0%nat ->
              breakingText result
              = "âŒ Found **" ++ Number_toString (Z.of_nat failures)
                ++ " breaking changes** that would affect **"
                ++ Number_toString (Z.of_nat operations)
                ++ " operations**").
  { intros N. unfold breakingText.
    assert (T : (0 <? List.length
                        (filter isFailure (changes (diffToPrevious result))))%nat
                = true).
    { apply breaking_count_test. rewrite failures_counted. exact N. }
    rewrite T. unfold foundBreakingText, length_toString.
    rewrite failures_counted. reflexivity. }
  assert (D : {failures = 0%nat} + {failures <> 0%nat})
    by apply Nat.eq_dec.
  assert (I0 : failures = 0%nat ->
               includes "âœ… Found **no breaking changes**." report = true).
  { intros E. rewrite <- (Z0 E). apply breakingText_includes. }
  assert (I1 : failures <> 0%nat ->
               includes ("âŒ Found **" ++ Number_toString (Z.of_nat failures)
                         ++ " breaking changes** that would affect **"
                         ++ Number_toString (Z.of_nat operations)
                         ++ " operations**") report = true).
  { intros N. rewrite <- (P N). apply breakingText_includes. }
  split; [exact I0 | split; [exact I1 |]].
  intros Ht Hn Hu. split; split.
  - intros I. destruct D as [E | N]; [exact E | exfalso].
    assert (M : occurs (ascii_of_nat 147) report = true)
      by (apply (occurs_includes _ _ _ I); reflexivity).
    unfold report in M.
    rewrite (occurs_in_report (ascii_of_nat 147) _ _ eq_refl Ht Hn Hu),
      (P N) in M.
    rewrite !occurs_append in M.
    rewrite !(occurs_ascii (ascii_of_nat 147) _ eq_refl (all_ascii_Number _))
      in M.
    discriminate M.
  - exact I0.
  - intros I N.
    assert (M : occurs (ascii_of_nat 146) report = true)
      by (apply (occurs_includes _ _ _ I); reflexivity).
    unfold report in M.
    rewrite (occurs_in_report (ascii_of_nat 146) _ _ eq_refl Ht Hn Hu),
      (Z0 N) in M.
    discriminate M.
  - intros N. specialize (I1 N).
    destruct (includes_split _ _ I1) as (a & b & E).
    apply includes_of_split with
      (a := a)
      (b := (Number_toString (Z.of_nat failures)
             ++ " breaking changes** that would affect **"
             ++ Number_toString (Z.of_nat operations)
             ++ " operations**") ++ b).
    rewrite E, !append_assoc. reflexivity.
Qed.

(** C5 (what the command does where the link should be left out): with no
    [targetUrl] the Markdown report still ends with the reference link, its
    target the word "null", while the table path prints no link line. With
    a [targetUrl] the Markdown report ends with the link to it. *)
Theorem C5_markdown_link_without_targetUrl :
  forall git ctxConfig config diff,
    formatMarkdown (mkCheckSchemaResult None diff) config
    = markdownBody (mkCheckSchemaResult None diff) config
      ++ "ðŸ”— [View your service check details](null)." ++ nl
    /\ (forall url,
          formatMarkdown (mkCheckSchemaResult (Some url) diff) config
          = markdownBody (mkCheckSchemaResult (Some url) diff) config
            ++ "ðŸ”— [View your service check details](" ++ url ++ ")."
            ++ nl)
    /\ (forall line,
          In (Log line)
             (snd (exec (report (mkTasksOutput git
                                   (mkCheckSchemaResult None diff)
                                   ctxConfig false false)))) ->
          startsWith "View full details at: " line = false).
Proof.
  intros git ctxConfig config diff. split; [| split].
  - unfold formatMarkdown, markdownBody, linkText. cbn [targetUrl template].
    rewrite !append_assoc. reflexivity.
  - intros url.
    unfold formatMarkdown, markdownBody, linkText. cbn [targetUrl template].
    rewrite !append_assoc. reflexivity.
  - intros line. unfold exec, report.
    cbn [shouldOutputJson shouldOutputMarkdown checkSchemaResult targetUrl
         diffToPrevious truthy].
    destruct (changes diff) as [| c cs]; cbn [List.length Nat.eqb].
    + step. cbn. intros [H | []]. injection H as <-. reflexivity.
    + repeat step. destruct (0 <? _)%nat; repeat step; cbn;
        intros [H | [H | [H | []]]]; try discriminate H;
        injection H as <-; reflexivity.
Qed.

(** *** The task: the order of the collaborator calls *)

(** The whole of [run], collaborator by collaborator. *)
Lemma exec_run_cases config flags :
  exec (run config flags) =
  if truthy (config_name config) then
    let tag := resolvedTag config flags in
    match resolveSchema tag with
    | inl t => (inl (Raised t), [ResolveSchema tag])
    | inr schema =>
      match snd gitInfo with
      | inl t =>
          (inl (Raised t), [ResolveSchema tag; GitInfo] ++ providerLog)
      | inr git =>
        let params := historicFlags flags in
        match validateHistoricParams params with
        | inl t =>
            (inl (Raised t),
             [ResolveSchema tag; GitInfo] ++ providerLog
             ++ [ValidateHistoricParams params])
        | inr historic =>
          let variables := checkVariables config flags schema git historic in
          match checkSchema variables with
          | inl t =>
              (inl (Raised t),
               [ResolveSchema tag; GitInfo] ++ providerLog
               ++ [ValidateHistoricParams params; CheckSchema variables])
          | inr result =>
              let ctx := mkTasksOutput git result contextConfig
                           (flag_json flags) (flag_markdown flags) in
              (fst (exec (report ctx)),
               [ResolveSchema tag; GitInfo] ++ providerLog
               ++ [ValidateHistoricParams params; CheckSchema variables]
               ++ snd (exec (report ctx)))
          end
        end
      end
    end%list
  else (inl (Error "No service found to link to Engine"), []).
Proof.
  rewrite exec_run. unfold exec at 1. rewrite runFrom_task.
  destruct (truthy (config_name config)); [| reflexivity]. cbv zeta.
  destruct (resolveSchema _); [reflexivity |].
  destruct (snd gitInfo); [reflexivity |].
  destruct (validateHistoricParams _); [reflexivity |].
  destruct (checkSchema _); [reflexivity |].
  unfold contextAfter. cbn [assigned_gitContext assigned_checkSchemaResult
    assigned_shouldOutputJson assigned_shouldOutputMarkdown].
  rewrite runFrom_report_exec. cbn [app]. rewrite <- !app_assoc.
  reflexivity.
Qed.

(** Splits a goal about [exec (run config flags)] into the six ways a run
    can go, with what each collaborator gave. *)
Ltac run_cases config flags :=
  rewrite ?(exec_run_cases config flags) in *; cbv zeta in *;
  destruct (truthy (config_name config)) eqn:EN;
  [ destruct (resolveSchema (resolvedTag config flags))
      as [t | schema] eqn:ES;
    [ | destruct (snd gitInfo) as [t | git] eqn:EG;
        [ | destruct (validateHistoricParams (historicFlags flags))
              as [t | historic] eqn:EV;
            [ | destruct (checkSchema
                            (checkVariables config flags schema git historic))
                  as [t | result] eqn:EC ] ] ]
  | ]; cbn [fst snd] in *.

Lemma output_is_output output e :
  forallb isOutput output = true -> In e output -> isOutput e = true.
Proof. intros H I. rewrite forallb_forall in H. exact (H e I). Qed.

Lemma providerLog_in e :
  In e providerLog -> exists line, e = Log line /\ In line (fst gitInfo).
Proof.
  unfold providerLog. intros I. apply in_map_iff in I.
  destruct I as (line & E & I). exists line. auto.
Qed.

(** Takes a hypothesis [In e trace] apart, down to the events the trace
    is made of, and closes the cases where a collaborator call would have
    to be a line of output. *)
Ltac trace_in I :=
  repeat match type of I with
  | _ \/ _ => destruct I as [I | I]
  | In _ (_ ++ _) => apply in_app_or in I
  | In _ (_ :: _) => cbn [In] in I
  | In _ [] => contradiction
  | False => contradiction
  end;
  try discriminate I;
  try (apply (output_is_output _ _ providerLog_output) in I;
       discriminate I);
  try (apply (output_is_output _ _ (report_output _)) in I;
       discriminate I).

(** C9: when the configuration has no service name ([config.name] is
    falsy), [run] throws the error "No service found to link to Engine"
    and has done nothing before: no schema resolution, no call to the
    check, no output. *)
Theorem C9_missing_service_name_fails_first :
  forall config flags,
    truthy (config_name config) = false ->
    exec (run config flags)
    = (inl (Error "No service found to link to Engine"), []).
Proof.
  intros config flags H. rewrite exec_run. unfold exec.
  rewrite runFrom_task, H. reflexivity.
Qed.

Lemma resolvedTag_cases config flags :
  resolvedTag config flags =
  let configured :=
    if (config_tag config =? "")%string then "current"
    else config_tag config in
  match flag_tag flags with
  | Some t => if (t =? "")%string then configured else t
  | None => configured
  end.
Proof.
  unfold resolvedTag, js_or_string, js_or, truthy.
  destruct (flag_tag flags) as [t |]; cbv zeta.
  - destruct (t =? "")%string eqn:E; cbn [negb]; cbv iota;
      [| rewrite E; reflexivity].
    destruct (config_tag config =? "")%string eqn:E'; cbn [negb]; cbv iota;
      rewrite ?E'; reflexivity.
  - destruct (config_tag config =? "")%string eqn:E'; cbn [negb]; cbv iota;
      rewrite ?E'; reflexivity.
Qed.

(** C10: the schema is resolved with the tag flag when it is given (and
    not empty), else with the configured tag, else with "current"; the
    check is called with the tag flag as it is. So without a tag flag the
    tag the schema was resolved with is not what the check receives. *)
Theorem C10_schema_tag_defaulted_check_tag_raw :
  forall config flags,
    truthy (config_name config) = true ->
    let configured :=
      if (config_tag config =? "")%string then "current"
      else config_tag config in
    let tag :=
      match flag_tag flags with
      | Some t => if (t =? "")%string then configured else t
      | None => configured
      end in
    let trace := snd (exec (run config flags)) in
    hd_error trace = Some (ResolveSchema tag)
    /\ (forall v, In (CheckSchema v) trace -> var_tag v = flag_tag flags)
    /\ (forall schema git historic,
          resolveSchema tag = inr schema ->
          snd gitInfo = inr git ->
          validateHistoricParams (historicFlags flags) = inr historic ->
          In (CheckSchema (checkVariables config flags schema git historic))
             trace)
    /\ (flag_tag flags = None ->
        forall v, In (CheckSchema v) trace ->
                  var_tag v = None /\ var_tag v <> Some tag).
Proof.
  intros config flags H configured tag trace.
  assert (T : resolvedTag config flags = tag)
    by (rewrite resolvedTag_cases; reflexivity).
  assert (A : forall v, In (CheckSchema v) trace -> var_tag v = flag_tag flags).
  { intros v I. unfold trace in I. clear T.
    run_cases config flags; trace_in I; injection I as <-; reflexivity. }
  split; [| split; [exact A | split]].
  - unfold trace. rewrite exec_run_cases, H, T. cbv zeta.
    destruct (resolveSchema tag); [reflexivity |].
    destruct (snd gitInfo); [reflexivity |].
    destruct (validateHistoricParams _); [reflexivity |].
    destruct (checkSchema _); reflexivity.
  - intros schema git historic ES EG EV.
    unfold trace. rewrite exec_run_cases, H, T. cbv zeta.
    rewrite ES, EG, EV.
    destruct (checkSchema _); cbn [snd app]; right; right;
      apply in_or_app; right; cbn [In app]; auto.
  - intros N v I. apply A in I. rewrite I, N.
    split; [reflexivity | discriminate].
Qed.

(** An event found in a list that begins with events of another kind lies
    after them. *)
Lemma prefix_before {A : Type} (p : A -> bool) (pre rest before : list A)
    (y : A) (after : list A) :
  forallb (fun e => negb (p e)) pre = true ->
  p y = true ->
  (pre ++ rest = before ++ y :: after)%list ->
  exists more, before = (pre ++ more)%list.
Proof.
  revert before. induction pre as [| a pre IH]; intros before Hp Hy E.
  - exists before. reflexivity.
  - cbn [forallb] in Hp. apply andb_true_iff in Hp. destruct Hp as [Ha Hp].
    destruct before as [| b before]; cbn [app] in E.
    + injection E as -> _. rewrite Hy in Ha. discriminate Ha.
    + injection E as -> E. destruct (IH before Hp Hy E) as (more & ->).
      exists more. reflexivity.
Qed.

Lemma providerLog_no_check :
  forallb (fun e => negb (isCallTo CheckService e)) providerLog = true.
Proof.
  unfold providerLog. induction (fst gitInfo) as [| l ls IH];
    [reflexivity | exact IH].
Qed.

(** C2: the historic parameters are validated before the check is called
    (in every run, a call to the check comes after the validation); and
    when the validation throws, [run] throws and the check is never
    called; what [run] throws is then what the validation threw, once the
    validation has been reached. *)
Theorem C2_validation_precedes_check :
  forall config flags,
    let params := historicFlags flags in
    let result := exec (run config flags) in
    (forall before v after,
        snd result = (before ++ CheckSchema v :: after)%list ->
        In (ValidateHistoricParams params) before)
    /\ (forall t,
          validateHistoricParams params = inl t ->
          (exists e, fst result = inl e)
          /\ (forall v, ~ In (CheckSchema v) (snd result))
          /\ (In (ValidateHistoricParams params) (snd result) ->
              fst result = inl (Raised t))).
Proof.
  intros config flags params result. split.
  - intros before v after E.
    assert (I : In (CheckSchema v) (snd result))
      by (rewrite E; apply in_elt).
    assert (P : forall variables output,
              snd result
              = ([ResolveSchema (resolvedTag config flags); GitInfo]
                 ++ providerLog
                 ++ [ValidateHistoricParams params; CheckSchema variables]
                 ++ output)%list ->
              In (ValidateHistoricParams params) before).
    { intros variables output E'. rewrite E' in E.
      destruct (prefix_before (isCallTo CheckService)
                  ([ResolveSchema (resolvedTag config flags); GitInfo]
                   ++ providerLog ++ [ValidateHistoricParams params])
                  (CheckSchema variables :: output) before (CheckSchema v)
                  after) as (more & ->).
      - rewrite !forallb_app, providerLog_no_check. reflexivity.
      - reflexivity.
      - rewrite <- E, <- !app_assoc. reflexivity.
      - apply in_or_app. left. apply in_or_app. right.
        apply in_or_app. right. cbn. auto. }
    unfold result, params in *. clear E result params.
    run_cases config flags; try (trace_in I; fail).
    + eapply (P _ []). reflexivity.
    + eapply P. reflexivity.
  - intros t EV. unfold result, params in *. clear result params.
    rewrite exec_run_cases. cbv zeta.
    destruct (truthy (config_name config)).
    2:{ cbn. split; [eauto | split; [tauto | tauto]]. }
    destruct (resolveSchema _).
    { cbn [fst snd]. split; [eauto | split].
      - intros v I. trace_in I.
      - intros I. trace_in I. }
    destruct (snd gitInfo).
    { cbn [fst snd]. split; [eauto | split].
      - intros v I. trace_in I.
      - intros I. trace_in I. }
    rewrite EV. cbn [fst snd]. split; [eauto | split].
    + intros v I. trace_in I.
    + reflexivity.
Qed.

(** *** More on the report *)

Lemma isFailure_type (c : Change) : isFailure c = true <-> type c = FAILURE.
Proof. unfold isFailure. destruct (type c); cbn; split; congruence. Qed.

(** The report throws only where it reads [config.tag] of a [config] the
    context does not hold, and has printed nothing then. *)
Lemma report_throws ctx e :
  fst (exec (report ctx)) = inl e ->
  e = TypeError
  /\ shouldOutputJson ctx = false /\ shouldOutputMarkdown ctx = true
  /\ config ctx = None
  /\ snd (exec (report ctx)) = [].
Proof.
  unfold exec, report.
  destruct (shouldOutputJson ctx); [repeat step; discriminate |].
  destruct (shouldOutputMarkdown ctx).
  { destruct (config ctx); repeat step; cbn [fst snd]; [discriminate |].
    intros [= <-]. auto. }
  destruct (List.length _ =? 0)%nat; [repeat step; discriminate |].
  repeat step.
  destruct (truthy _); repeat step;
    destruct (0 <? _)%nat; repeat step; discriminate.
Qed.

(** X1: in table mode the command ends with the exit signal exactly when
    some change is a FAILURE, and returns exactly when none is; WARNING and
    NOTICE changes have no part in it. *)
Theorem X1_table_mode_exit_iff_failure :
  forall git config result,
    let outcome :=
      fst (exec (report (mkTasksOutput git result config false false))) in
    (outcome = inr Exited
     <-> exists c, In c (changes (diffToPrevious result)) /\ type c = FAILURE)
    /\ (outcome = inr Returned
        <-> forall c, In c (changes (diffToPrevious result)) ->
                      type c <> FAILURE).
Proof.
  intros git config result outcome. unfold outcome.
  rewrite report_table_outcome.
  destruct (existsb isFailure (changes (diffToPrevious result))) eqn:E.
  - apply existsb_exists in E. destruct E as (c & I & F).
    apply isFailure_type in F. split; split.
    + intros _. exists c. auto.
    + reflexivity.
    + discriminate.
    + intros H. exfalso. exact (H c I F).
  - assert (N : forall c, In c (changes (diffToPrevious result)) ->
                          type c <> FAILURE).
    { intros c I F. apply isFailure_type in F.
      assert (X : existsb isFailure (changes (diffToPrevious result)) = true)
        by (apply existsb_exists; exists c; auto).
      rewrite X in E. discriminate E. }
    split; split.
    + discriminate.
    + intros (c & I & F). exfalso. exact (N c I F).
    + intros _. exact N.
    + reflexivity.
Qed.

(** X9: in table mode, with at least one change, the output is a blank
    line, the table, a blank line, and then the line "View full details at:"
    with the link exactly when [targetUrl] is a string that is not empty. *)
Theorem X9_table_mode_output :
  forall git config url c cs aq vc,
    let result := mkCheckSchemaResult url (mkDiffToPrevious (c :: cs) aq vc) in
    snd (exec (report (mkTasksOutput git result config false false)))
    = ([Log nl; Table (map formatChange (c :: cs)) columns; Log nl]
       ++ match url with
          | Some u =>
              if (u =? "")%string then []
              else [Log ("View full details at: " ++ u)]
          | None => []
          end)%list.
Proof.
  intros git config url c cs aq vc result. unfold exec, report.
  cbn [shouldOutputJson shouldOutputMarkdown checkSchemaResult
       diffToPrevious changes targetUrl result List.length Nat.eqb].
  repeat step.
  destruct url as [u |]; cbn [truthy template].
  - destruct (u =? "")%string; cbn [negb]; repeat step;
      destruct (0 <? _)%nat; repeat step; reflexivity.
  - repeat step. destruct (0 <? _)%nat; repeat step; reflexivity.
Qed.

(** *** More on the Markdown report *)

(** X10: the Markdown report names the configured tag and the configured
    service name between quotes, and gives the number of all the changes,
    whatever their type. *)
Theorem X10_markdown_names_tag_service_and_total :
  forall result config,
    let report := formatMarkdown result config in
    includes ("schema tag '" ++ config_tag config ++ "' on service '"
              ++ config_service_name config ++ "'.") report = true
    /\ includes ("Compared **"
                 ++ Number_toString
                      (Z.of_nat (List.length (changes (diffToPrevious result))))
                 ++ " schema changes**") report = true.
Proof.
  intros result config report. unfold report, formatMarkdown. split.
  - eapply includes_of_split with
      (a := nl ++ "### Apollo Service Check" ++ nl
            ++ "ðŸ”„ Validated your local schema against ").
    rewrite !append_assoc. reflexivity.
  - eapply includes_of_split with
      (a := nl ++ "### Apollo Service Check" ++ nl
            ++ "ðŸ”„ Validated your local schema against schema tag '"
            ++ config_tag config
            ++ "' on service '" ++ config_service_name config ++ "'." ++ nl
            ++ "ðŸ”¢ ").
    rewrite !append_assoc. reflexivity.
Qed.

Lemma Number_toString_negative (z : Z) :
  z < 0 -> exists rest, Number_toString z = String "-" rest.
Proof.
  intros H. destruct z as [| p | p]; try lia.
  unfold Number_toString. cbn. eexists. reflexivity.
Qed.

(** X11: for a window with [to <= from] that is under 2^26 days, when the
    instants [from] and [to] seconds from one reading of the clock are
    valid dates at one UTC offset, the day count is minus the whole days
    in [from - to]: it is not positive, and from a day on it is negative
    and the report prints it with its minus sign. *)
Theorem X11_markdown_days_of_reversed_window :
  forall result config,
    let vc := validationConfig (diffToPrevious result) in
    let days := - ((from vc - to vc) / 86400) in
    to vc <= from vc ->
    (from vc - to vc) * 1000 <= moment.exact_span ->
    now' = now ->
    moment.valid (now + from vc * 1000) = true ->
    moment.valid (now' + to vc * 1000) = true ->
    utcOffset (now + from vc * 1000) = utcOffset (now' + to vc * 1000) ->
    elapsedDays vc = Some days
    /\ days <= 0
    /\ (86400 <= from vc - to vc ->
        days < 0
        /\ exists digits,
             Number_toString days = String "-" digits
             /\ includes ("**last -" ++ digits ++ " days**.")
                         (formatMarkdown result config) = true).
Proof.
  intros result config vc days Hw Hs Hc Va Vb Ho.
  assert (E : elapsedDays vc = Some days).
  { unfold elapsedDays.
    rewrite (add_second_valid _ _ Va), (add_second_valid _ _ Vb).
    unfold moment.diff_days. rewrite Ho, Z.sub_diag, Z.mul_0_l, Z.sub_0_r.
    cbn [option_map]. f_equal. unfold days. f_equal. rewrite Hc.
    replace (now + from vc * 1000 - (now + to vc * 1000))
      with ((from vc - to vc) * 1000) by lia.
    rewrite Z.quot_div_nonneg by lia.
    change 86400000 with (1000 * 86400).
    rewrite <- Z.div_div by lia. rewrite Z.div_mul by lia. reflexivity. }
  assert (P : 0 <= (from vc - to vc) / 86400) by (apply Z.div_pos; lia).
  split; [exact E | split; [unfold days; lia |]].
  intros Hd.
  assert (L : 1 <= (from vc - to vc) / 86400)
    by (apply Z.div_le_lower_bound; lia).
  assert (N : days < 0) by (unfold days; lia).
  split; [exact N |].
  destruct (Number_toString_negative days N) as (digits & D).
  exists digits. split; [exact D |].
  unfold formatMarkdown. fold vc. rewrite E.
  assert (T : daysText (Some days) = "-" ++ digits ++ " days").
  { unfold daysText. destruct (Z.eqb_spec days 1); [lia |].
    rewrite D. reflexivity. }
  rewrite T.
  eapply includes_of_split with
    (a := nl ++ "### Apollo Service Check" ++ nl
          ++ "ðŸ”„ Validated your local schema against schema tag '"
          ++ config_tag config
          ++ "' on service '" ++ config_service_name config ++ "'." ++ nl
          ++ "ðŸ”¢ Compared **"
          ++ length_toString (changes (diffToPrevious result))
          ++ " schema changes** against operations seen over the ").
  rewrite !append_assoc. reflexivity.
Qed.

(** *** More on the JSON report *)

(** X12: the JSON text tells results apart: two reports with the same
    text have the same targetUrl, the same changes and the same window. *)
Theorem X12_json_report_injective :
  forall url cs vc url' cs' vc',
    JSON.stringify (jsonReport url cs vc)
    = JSON.stringify (jsonReport url' cs' vc') ->
    url = url' /\ cs = cs' /\ vc = vc'.
Proof.
  intros url cs vc url' cs' vc' H.
  assert (E : Some (jsonReport url cs vc) = Some (jsonReport url' cs' vc')).
  { rewrite <- !parse_stringify. rewrite H. reflexivity. }
  apply (f_equal (fun o => match o with
                           | Some v => readReport v
                           | None => None
                           end)) in E.
  cbv beta iota in E.
  rewrite !readReport_jsonReport in E. injection E as -> -> ->. auto.
Qed.

(** *** More on the run: what is called, in what order, with what *)

(** X2: a run that throws has printed no report: no table, and no line
    other than those the git provider wrote through the logger it was
    handed. (The exit signal of table mode is an outcome of the run here,
    not something thrown; it comes after the table.) *)
Theorem X2_failed_run_prints_no_report :
  forall config flags e,
    fst (exec (run config flags)) = inl e ->
    forall event,
      In event (snd (exec (run config flags))) ->
      isOutput event = true ->
      exists line, event = Log line /\ In line (fst gitInfo).
Proof.
  intros config flags e H event I O. run_cases config flags.
  - trace_in I. rewrite <- I in O. discriminate O.
  - trace_in I; try (rewrite <- I in O; discriminate O).
    apply providerLog_in. exact I.
  - trace_in I; try (rewrite <- I in O; discriminate O).
    apply providerLog_in. exact I.
  - trace_in I; try (rewrite <- I in O; discriminate O).
    apply providerLog_in. exact I.
  - destruct (report_throws _ _ H) as (_ & _ & _ & _ & R).
    rewrite R in I.
    trace_in I; try (rewrite <- I in O; discriminate O).
    apply providerLog_in. exact I.
  - contradiction.
Qed.

(** X3: what [run] throws is its own error for a missing service name
    (exactly when the name is falsy), or what the first collaborator to
    fail threw, unchanged, those before it having succeeded, or, after
    the four succeeded, the [TypeError] of the Markdown report on a
    context without [config]. (The exit signal of table mode is an
    outcome of the run here, not something thrown.) *)
Theorem X3_run_throws_what_was_thrown :
  forall config flags e,
    fst (exec (run config flags)) = inl e ->
    let tag := resolvedTag config flags in
    let params := historicFlags flags in
    (truthy (config_name config) = false
     /\ e = Error "No service found to link to Engine")
    \/ (truthy (config_name config) = true
        /\ ((exists t, e = Raised t /\ resolveSchema tag = inl t)
            \/ exists schema,
                 resolveSchema tag = inr schema
                 /\ ((exists t, e = Raised t /\ snd gitInfo = inl t)
                     \/ exists git,
                          snd gitInfo = inr git
                          /\ ((exists t,
                                  e = Raised t
                                  /\ validateHistoricParams params = inl t)
                              \/ exists historic,
                                   validateHistoricParams params
                                   = inr historic
                                   /\ ((exists t,
                                           e = Raised t
                                           /\ checkSchema
                                                (checkVariables config flags
                                                   schema git historic)
                                              = inl t)
                                       \/ (exists result,
                                              checkSchema
                                                (checkVariables config flags
                                                   schema git historic)
                                              = inr result)
                                          /\ e = TypeError
                                          /\ flag_json flags = false
                                          /\ flag_markdown flags = true
                                          /\ contextConfig = None))))).
Proof.
  intros config flags e H tag params. unfold tag, params.
  run_cases config flags.
  - injection H as <-. right. split; [reflexivity |]. left. eauto.
  - injection H as <-. right. split; [reflexivity |]. right.
    exists schema. split; [reflexivity |]. left. eauto.
  - injection H as <-. right. split; [reflexivity |]. right.
    exists schema. split; [reflexivity |]. right.
    exists git. split; [reflexivity |]. left. eauto.
  - injection H as <-. right. split; [reflexivity |]. right.
    exists schema. split; [reflexivity |]. right.
    exists git. split; [reflexivity |]. right.
    exists historic. split; [reflexivity |]. left. eauto.
  - destruct (report_throws _ _ H) as (-> & J & K & C & _).
    cbn in J, K, C.
    right. split; [reflexivity |]. right.
    exists schema. split; [reflexivity |]. right.
    exists git. split; [reflexivity |]. right.
    exists historic. split; [reflexivity |]. right.
    split; [eauto |]. auto.
  - injection H as <-. left. auto.
Qed.

(** X4: each step is taken only after the one before it went well: the
    schema is resolved only under a service name and with the tag of the
    flags and the configuration, the git provider is asked only after the
    schema was resolved, and the parameters are validated, the flags passed
    as they are, only after the git provider answered. *)
Theorem X4_each_step_after_the_previous :
  forall config flags,
    let trace := snd (exec (run config flags)) in
    (forall tag, In (ResolveSchema tag) trace ->
                 tag = resolvedTag config flags
                 /\ truthy (config_name config) = true)
    /\ (In GitInfo trace ->
        exists schema, resolveSchema (resolvedTag config flags) = inr schema)
    /\ (forall params, In (ValidateHistoricParams params) trace ->
                       params = historicFlags flags
                       /\ exists git, snd gitInfo = inr git).
Proof.
  intros config flags trace. unfold trace. split; [| split].
  - intros tag I. run_cases config flags; trace_in I;
      injection I as <-; auto.
  - intros I. run_cases config flags; trace_in I; eauto.
  - intros params I. run_cases config flags; trace_in I;
      injection I as <-; eauto.
Qed.

Lemma output_no_call k output :
  forallb isOutput output = true -> filter (isCallTo k) output = [].
Proof.
  induction output as [| e output IH]; [reflexivity |].
  cbn [forallb filter]. intros H. apply andb_true_iff in H.
  destruct H as [He Ho]. rewrite (IH Ho).
  destruct k, e; try discriminate He; reflexivity.
Qed.

(** X5: nothing is retried: in a run each collaborator is called at most
    once. *)
Theorem X5_each_collaborator_called_at_most_once :
  forall config flags k,
    let trace := snd (exec (run config flags)) in
    (List.length (filter (isCallTo k) trace) <= 1)%nat.
Proof.
  intros config flags k trace. unfold trace. run_cases config flags;
    rewrite ?filter_app, ?(output_no_call k _ providerLog_output),
      ?(output_no_call k _ (report_output _));
    destruct k; cbn; lia.
Qed.

(** X6: what the check is called with: the service name of the
    configuration, which is not empty; the introspection of the schema that
    was resolved; what the git provider gave; the frontend flag when it is
    given and not empty, else the configured frontend; and the historic
    parameters as the validation gave them, none when it gave none. *)
Theorem X6_check_variables :
  forall config flags,
    let trace := snd (exec (run config flags)) in
    let tag := resolvedTag config flags in
    (forall v, In (CheckSchema v) trace ->
       var_id v = config_name config
       /\ truthy (var_id v) = true
       /\ (exists schema,
             resolveSchema tag = inr schema
             /\ var_schema v = introspectionFromSchema schema)
       /\ snd gitInfo = inr (var_gitContext v)
       /\ var_frontend v
          = match flag_frontend flags with
            | Some f =>
                if (f =? "")%string then config_engine_frontend config
                else Some f
            | None => config_engine_frontend config
            end
       /\ validateHistoricParams (historicFlags flags)
          = inr (var_historicParameters v)).
Proof.
  intros config flags trace tag v I. unfold trace, tag in *. clear trace tag.
  assert (F : js_or (flag_frontend flags) (config_engine_frontend config)
              = match flag_frontend flags with
                | Some f =>
                    if (f =? "")%string then config_engine_frontend config
                    else Some f
                | None => config_engine_frontend config
                end).
  { unfold js_or, truthy. destruct (flag_frontend flags) as [f |];
      [destruct (f =? "")%string |]; reflexivity. }
  run_cases config flags; trace_in I.
  - injection I as <-. cbn [checkVariables var_id var_schema var_gitContext
      var_frontend var_historicParameters].
    rewrite EN. repeat split; eauto.
  - injection I as <-. cbn [checkVariables var_id var_schema var_gitContext
      var_frontend var_historicParameters].
    rewrite EN. repeat split; eauto.
Qed.

(** X7: the tag a run resolves the schema with is the tag flag when it is
    given and not empty, else the configured tag when it is not empty,
    else "current"; so it is never empty. *)
Theorem X7_resolved_tag_not_empty :
  forall config flags tag,
    In (ResolveSchema tag) (snd (exec (run config flags))) ->
    let configured :=
      if (config_tag config =? "")%string then "current"
      else config_tag config in
    tag = match flag_tag flags with
          | Some t => if (t =? "")%string then configured else t
          | None => configured
          end
    /\ tag <> "".
Proof.
  intros config flags tag I configured.
  assert (E : tag = resolvedTag config flags).
  { run_cases config flags; trace_in I; injection I as <-; reflexivity. }
  rewrite E, resolvedTag_cases. fold configured.
  assert (C : configured <> "").
  { unfold configured.
    destruct (String.eqb_spec (config_tag config) "") as [Hc | Hc];
      [discriminate | exact Hc]. }
  split; [reflexivity |].
  destruct (flag_tag flags) as [t |]; [| exact C].
  destruct (String.eqb_spec t "") as [Ht | Ht]; [exact C | exact Ht].
Qed.

(** X8: when the service is named and the four collaborators succeed, a
    run with the JSON flag makes the four calls in order, the lines of the
    git provider logged after its call, and then logs the one JSON text.
    With the Markdown flag instead it logs, after the same calls, the one
    Markdown report made from the result of the check and the [config]
    the context holds, and returns; on a context that holds none, as the
    task assigns none, it throws the [TypeError] and logs no report. *)
Theorem X8_successful_run_json_or_markdown :
  forall config flags schema git historic result,
    truthy (config_name config) = true ->
    resolveSchema (resolvedTag config flags) = inr schema ->
    snd gitInfo = inr git ->
    validateHistoricParams (historicFlags flags) = inr historic ->
    checkSchema (checkVariables config flags schema git historic)
    = inr result ->
    let calls :=
      ([ResolveSchema (resolvedTag config flags); GitInfo]
       ++ map Log (fst gitInfo)
       ++ [ValidateHistoricParams (historicFlags flags);
           CheckSchema (checkVariables config flags schema git historic)])%list
    in
    (flag_json flags = true ->
     exec (run config flags)
     = (inr Returned,
        calls ++ [Log (JSON.stringify
                         (jsonReport (targetUrl result)
                            (changes (diffToPrevious result))
                            (validationConfig (diffToPrevious result))))])%list)
    /\ (flag_json flags = false -> flag_markdown flags = true ->
        exec (run config flags)
        = match contextConfig with
          | Some held =>
              (inr Returned, calls ++ [Log (formatMarkdown result held)])%list
          | None => (inl TypeError, calls)
          end).
Proof.
  intros config flags schema git historic result EN ES EG EV EC calls.
  rewrite exec_run_cases, EN. cbv zeta. rewrite ES, EG, EV, EC.
  unfold calls. fold providerLog. split.
  - intros J. rewrite J. cbn [fst snd report exec].
    rewrite <- !app_assoc. reflexivity.
  - intros J K. rewrite J, K.
    destruct contextConfig; cbn [fst snd app];
      rewrite <- ?app_assoc, ?app_nil_r; reflexivity.
Qed.

(** X13: how a run ends when the service is named and the four
    collaborators succeed. With the JSON flag it returns. With the
    Markdown flag it returns when the context holds a [config], and throws
    the [TypeError] when it holds none. With neither flag it ends with the
    exit signal exactly when some change of the result is a FAILURE, and
    returns otherwise. *)
Theorem X13_successful_run_outcome :
  forall config flags schema git historic result,
    truthy (config_name config) = true ->
    resolveSchema (resolvedTag config flags) = inr schema ->
    snd gitInfo = inr git ->
    validateHistoricParams (historicFlags flags) = inr historic ->
    checkSchema (checkVariables config flags schema git historic)
    = inr result ->
    fst (exec (run config flags))
    = if flag_json flags then inr Returned
      else if flag_markdown flags then
        match contextConfig with
        | Some _ => inr Returned
        | None => inl TypeError
        end
      else inr (if existsb isFailure (changes (diffToPrevious result))
                then Exited else Returned).
Proof.
  intros config flags schema git historic result EN ES EG EV EC.
  rewrite exec_run_cases, EN. cbv zeta. rewrite ES, EG, EV, EC. cbn [fst].
  destruct (flag_json flags); [reflexivity |].
  destruct (flag_markdown flags); [destruct contextConfig; reflexivity |].
  apply report_table_outcome.
Qed.

(** X14: the Markdown report shows of the changes only how many there are
    and how many are a FAILURE, and of the affected operations only their
    number: two results that agree on these, on the link and on the window
    give the same report. *)
Theorem X14_markdown_depends_on_counts_only :
  forall result result' config,
    targetUrl result = targetUrl result' ->
    validationConfig (diffToPrevious result)
    = validationConfig (diffToPrevious result') ->
    List.length (changes (diffToPrevious result))
    = List.length (changes (diffToPrevious result')) ->
    List.length (filter isFailure (changes (diffToPrevious result)))
    = List.length (filter isFailure (changes (diffToPrevious result'))) ->
    List.length (affectedQueries (diffToPrevious result))
    = List.length (affectedQueries (diffToPrevious result')) ->
    formatMarkdown result config = formatMarkdown result' config.
Proof.
  intros result result' config Hu Hw Hn Hf Ha.
  unfold formatMarkdown, breakingText, length_toString.
  rewrite Hu, Hw, Hn, Hf, Ha. reflexivity.
Qed.

End ServiceCheck.

(** ** Sample runs

    The collaborators of these runs: a schema resolver and a check that
    succeed, a git provider that writes one line through the logger and
    succeeds or throws, and a validation that succeeds or throws. The
    clock reads 1700000000000 ms, in a zone at UTC. *)

(** C3, at the window of the last 100 seconds: rounding up gives 1 day, the
    report says "0 days". *)
Lemma C3_counterexample_rounds_down :
  elapsedDays 1700000000000 1700000000000 (fun _ => 0)
    (mkValidationConfig (-100) 0)
  <> Some (specDays (mkValidationConfig (-100) 0))
  /\ includes "**last 0 days**."
       (formatMarkdown 1700000000000 1700000000000 (fun _ => 0)
          (@sampleResult unit 100) sampleConfig) = true.
Proof. split; [vm_compute; discriminate | vm_compute; reflexivity]. Qed.

Lemma C3_witness_last_week :
  (from (mkValidationConfig (-604800) 0) <= to (mkValidationConfig (-604800) 0))
  /\ 0 <= 1700000000003 - 1700000000000 < 1000
  /\ elapsedDays 1700000000000 1700000000003 (fun _ => 0)
       (mkValidationConfig (-604800) 0) = Some 7
  /\ includes "**last 7 days**."
       (formatMarkdown 1700000000000 1700000000003 (fun _ => 0)
          (@sampleResult unit 604800) sampleConfig) = true.
Proof.
  assert (Hw : from (mkValidationConfig (-604800) 0)
               <= to (mkValidationConfig (-604800) 0)) by (cbn; lia).
  assert (Hc : 0 <= 1700000000003 - 1700000000000 < 1000) by lia.
  assert (Hs : (to (mkValidationConfig (-604800) 0)
                - from (mkValidationConfig (-604800) 0) + 1) * 1000
               <= moment.exact_span) by (vm_compute; discriminate).
  destruct (C3_markdown_whole_days_elapsed 1700000000000 1700000000003
              (fun _ => 0) (@sampleResult unit 604800) sampleConfig
              Hw Hs Hc eq_refl eq_refl eq_refl) as (E & _ & I & _).
  split; [exact Hw | split; [exact Hc | split; [exact E |]]].
  vm_compute. reflexivity.
Defined.

Lemma C4_witness_one_failure :
  includes "âœ… Found **no breaking changes**."
    (formatMarkdown 0 0 (fun _ => 0) (@sampleResult unit 604800) sampleConfig)
  = false
  /\ includes
       "âŒ Found **1 breaking changes** that would affect **0 operations**"
       (formatMarkdown 0 0 (fun _ => 0) (@sampleResult unit 604800)
          sampleConfig) = true.
Proof.
  destruct (C4_markdown_breaking_statement 0 0 (fun _ => 0)
              (@sampleResult unit 604800) sampleConfig) as (_ & I & H).
  destruct (H eq_refl eq_refl eq_refl) as [H0 _]. split.
  - apply not_true_is_false. intros E. apply H0 in E. discriminate E.
  - refine (I _). vm_compute. discriminate.
Defined.

Lemma C9_witness_unnamed_service :
  truthy (config_name unnamedConfig) = false
  /\ exec (run (AffectedQuery := unit) (HistoricParameters := unit)
             (fun _ : string => @inr unit unit tt)
             (["no git repository found"], inr (@None unit))
             (fun _ : unit => tt) (fun _ => inr None)
             (fun _ => inr (sampleResult 604800))
             (fun s => s) (fun s => s) 1700000000000 1700000000000
             (fun _ => 0) None unnamedConfig (sampleFlags false false))
     = (inl (Error "No service found to link to Engine"), []).
Proof.
  split; [reflexivity |].
  apply C9_missing_service_name_fails_first. reflexivity.
Defined.

Lemma C10_witness_no_tag_flag :
  truthy (config_name sampleConfig) = true
  /\ hd_error
       (snd (exec (run (AffectedQuery := unit) (HistoricParameters := unit)
                     (fun _ : string => @inr unit unit tt)
                     (["no git repository found"], inr (@None unit))
                     (fun _ : unit => tt) (fun _ => inr None)
                     (fun _ => inr (sampleResult 604800))
                     (fun s => s) (fun s => s) 1700000000000 1700000000000
                     (fun _ => 0) None sampleConfig
                     (sampleFlags false false))))
     = Some (ResolveSchema "current")
  /\ forall v,
       In (CheckSchema v)
          (snd (exec (run (AffectedQuery := unit) (HistoricParameters := unit)
                        (fun _ : string => @inr unit unit tt)
                        (["no git repository found"], inr (@None unit))
                        (fun _ : unit => tt) (fun _ => inr None)
                        (fun _ => inr (sampleResult 604800))
                        (fun s => s) (fun s => s) 1700000000000 1700000000000
                        (fun _ => 0) None sampleConfig
                        (sampleFlags false false)))) ->
       var_tag v = None.
Proof.
  assert (H : truthy (config_name sampleConfig) = true) by reflexivity.
  destruct (C10_schema_tag_defaulted_check_tag_raw
              (AffectedQuery := unit) (HistoricParameters := unit)
              (fun _ : string => @inr unit unit tt)
              (["no git repository found"], inr (@None unit))
              (fun _ : unit => tt) (fun _ => inr None)
              (fun _ => inr (sampleResult 604800))
              (fun s => s) (fun s => s) 1700000000000 1700000000000
              (fun _ => 0) None sampleConfig
              (sampleFlags false false) H) as (R & T & _ & _).
  split; [exact H | split; [exact R | exact T]].
Defined.

Lemma X2_witness_git_provider_throws :
  let failing :=
    run (AffectedQuery := unit) (HistoricParameters := unit)
      (fun _ : string => @inr unit unit tt)
      (["no git repository found"], @inl unit (option unit) tt)
      (fun _ : unit => tt) (fun _ => inr None)
      (fun _ => inr (sampleResult 604800))
      (fun s => s) (fun s => s) 1700000000000 1700000000000
      (fun _ => 0) None sampleConfig (sampleFlags false false) in
  fst (exec failing) = inl (Raised tt)
  /\ forall event,
       In event (snd (exec failing)) -> isOutput event = true ->
       event = Log "no git repository found".
Proof.
  cbv zeta. split; [reflexivity |].
  intros event I O.
  destruct (X2_failed_run_prints_no_report
              (AffectedQuery := unit) (HistoricParameters := unit)
              (fun _ : string => @inr unit unit tt)
              (["no git repository found"], @inl unit (option unit) tt)
              (fun _ : unit => tt) (fun _ => inr None)
              (fun _ => inr (sampleResult 604800))
              (fun s => s) (fun s => s) 1700000000000 1700000000000
              (fun _ => 0) None sampleConfig
              (sampleFlags false false) (Raised tt) eq_refl event I O)
    as (line & E & [L | []]).
  rewrite E, <- L. reflexivity.
Defined.

Lemma X3_witness_schema_resolver_throws :
  let failing :=
    run (AffectedQuery := unit) (GitContext := unit)
      (HistoricParameters := unit)
      (fun _ : string => @inl unit unit tt)
      (["no git repository found"], inr None)
      (fun _ : unit => tt) (fun _ => inr None)
      (fun _ => inr (sampleResult 604800))
      (fun s => s) (fun s => s) 1700000000000 1700000000000
      (fun _ => 0) None sampleConfig (sampleFlags false false) in
  fst (exec failing) = inl (Raised tt)
  /\ truthy (config_name sampleConfig) = true.
Proof.
  cbv zeta. split; [reflexivity |].
  destruct (X3_run_throws_what_was_thrown
              (AffectedQuery := unit) (GitContext := unit)
              (HistoricParameters := unit)
              (fun _ : string => @inl unit unit tt)
              (["no git repository found"], inr None)
              (fun _ : unit => tt) (fun _ => inr None)
              (fun _ => inr (sampleResult 604800))
              (fun s => s) (fun s => s) 1700000000000 1700000000000
              (fun _ => 0) None sampleConfig
              (sampleFlags false false) (Raised tt) eq_refl)
    as [[_ E] | [N _]]; [discriminate E | exact N].
Defined.

Lemma X6_witness_check_variables :
  let ok :=
    run (AffectedQuery := unit) (HistoricParameters := unit)
      (fun _ : string => @inr unit unit tt)
      (["no git repository found"], inr (@None unit))
      (fun _ : unit => tt) (fun _ => inr None)
      (fun _ => inr (sampleResult 604800))
      (fun s => s) (fun s => s) 1700000000000 1700000000000
      (fun _ => 0) None sampleConfig (sampleFlags false false) in
  let v :=
    mkCheckSchemaVariables (Some "my-service") tt None (@None unit) None
      (@None unit) in
  In (CheckSchema v) (snd (exec ok))
  /\ truthy (var_id v) = true
  /\ var_frontend v = None.
Proof.
  cbv zeta.
  assert (I : In (CheckSchema
                    (mkCheckSchemaVariables (Some "my-service") tt None
                       (@None unit) None (@None unit)))
                 (snd (exec
                    (run (AffectedQuery := unit) (HistoricParameters := unit)
                       (fun _ : string => @inr unit unit tt)
                       (["no git repository found"], inr (@None unit))
                       (fun _ : unit => tt) (fun _ => inr None)
                       (fun _ => inr (sampleResult 604800))
                       (fun s => s) (fun s => s)
                       1700000000000 1700000000000
                       (fun _ => 0) None sampleConfig
                       (sampleFlags false false)))))
    by (cbn; auto 10).
  destruct (X6_check_variables
              (AffectedQuery := unit) (HistoricParameters := unit)
              (fun _ : string => @inr unit unit tt)
              (["no git repository found"], inr (@None unit))
              (fun _ : unit => tt) (fun _ => inr None)
              (fun _ => inr (sampleResult 604800))
              (fun s => s) (fun s => s) 1700000000000 1700000000000
              (fun _ => 0) None sampleConfig
              (sampleFlags false false) _ I) as (_ & T & _ & _ & F & _).
  split; [exact I | split; [exact T | exact F]].
Defined.

Lemma X7_witness_default_tag :
  In (ResolveSchema "current")
     (snd (exec (run (AffectedQuery := unit) (HistoricParameters := unit)
                   (fun _ : string => @inr unit unit tt)
                   (["no git repository found"], inr (@None unit))
                   (fun _ : unit => tt) (fun _ => inr None)
                   (fun _ => inr (sampleResult 604800))
                   (fun s => s) (fun s => s) 1700000000000 1700000000000
                   (fun _ => 0) None sampleConfig
                   (sampleFlags false false))))
  /\ "current" <> "".
Proof.
  assert (I : In (ResolveSchema "current")
                 (snd (exec
                    (run (AffectedQuery := unit) (HistoricParameters := unit)
                       (fun _ : string => @inr unit unit tt)
                       (["no git repository found"], inr (@None unit))
                       (fun _ : unit => tt) (fun _ => inr None)
                       (fun _ => inr (sampleResult 604800))
                       (fun s => s) (fun s => s)
                       1700000000000 1700000000000
                       (fun _ => 0) None sampleConfig
                       (sampleFlags false false)))))
    by (cbn; auto).
  split; [exact I |].
  exact (proj2 (X7_resolved_tag_not_empty
                  (AffectedQuery := unit) (HistoricParameters := unit)
                  (fun _ : string => @inr unit unit tt)
                  (["no git repository found"], inr (@None unit))
                  (fun _ : unit => tt) (fun _ => inr None)
                  (fun _ => inr (sampleResult 604800))
                  (fun s => s) (fun s => s) 1700000000000 1700000000000
                  (fun _ => 0) None sampleConfig
                  (sampleFlags false false) "current" I)).
Defined.

Lemma X8_witness_markdown_run :
  exec (run (AffectedQuery := unit) (HistoricParameters := unit)
          (fun _ : string => @inr unit unit tt)
          (["no git repository found"], inr (@None unit))
          (fun _ : unit => tt) (fun _ => inr None)
          (fun _ => inr (sampleResult 604800))
          (fun s => s) (fun s => s) 1700000000000 1700000000000
          (fun _ => 0) (Some sampleConfig) sampleConfig
          (sampleFlags false true))
  = (inr Returned,
     [ResolveSchema "current"; GitInfo; Log "no git repository found";
      ValidateHistoricParams (mkHistoricFlags (Some "P1W") None None);
      CheckSchema
        (mkCheckSchemaVariables (Some "my-service") tt None (@None unit) None
           (@None unit));
      Log (formatMarkdown 1700000000000 1700000000000 (fun _ => 0)
             (@sampleResult unit 604800) sampleConfig)]).
Proof.
  exact (proj2 (X8_successful_run_json_or_markdown
                  (AffectedQuery := unit) (HistoricParameters := unit)
                  (fun _ : string => @inr unit unit tt)
                  (["no git repository found"], inr (@None unit))
                  (fun _ : unit => tt) (fun _ => inr None)
                  (fun _ => inr (sampleResult 604800))
                  (fun s => s) (fun s => s) 1700000000000 1700000000000
                  (fun _ => 0) (Some sampleConfig) sampleConfig
                  (sampleFlags false true) tt None None (sampleResult 604800)
                  eq_refl eq_refl eq_refl eq_refl eq_refl)
               eq_refl eq_refl).
Defined.

Lemma X11_witness_two_days_reversed :
  to (mkValidationConfig 0 (-172800)) <= from (mkValidationConfig 0 (-172800))
  /\ elapsedDays 1700000000000 1700000000000 (fun _ => 0)
       (mkValidationConfig 0 (-172800)) = Some (-2)
  /\ includes "**last -2 days**."
       (formatMarkdown 1700000000000 1700000000000 (fun _ => 0)
          (mkCheckSchemaResult None
             (mkDiffToPrevious [] (@nil unit)
                (mkValidationConfig 0 (-172800))))
          sampleConfig) = true.
Proof.
  assert (Hw : to (mkValidationConfig 0 (-172800))
               <= from (mkValidationConfig 0 (-172800))) by (cbn; lia).
  assert (Hs : (from (mkValidationConfig 0 (-172800))
                - to (mkValidationConfig 0 (-172800))) * 1000
               <= moment.exact_span) by (vm_compute; discriminate).
  destruct (X11_markdown_days_of_reversed_window
              1700000000000 1700000000000 (fun _ => 0)
              (mkCheckSchemaResult None
                 (mkDiffToPrevious [] (@nil unit)
                    (mkValidationConfig 0 (-172800))))
              sampleConfig Hw Hs eq_refl eq_refl eq_refl eq_refl)
    as (E & _ & _).
  split; [exact Hw | split; [exact E |]].
  vm_compute. reflexivity.
Defined.

Lemma X12_witness_same_report :
  Some "https://engine.example/checks/1"
  = Some "https://engine.example/checks/1"
  /\ [mkChange WARNING "FIELD_DEPRECATED" "field Query.me was deprecated"]
     = [mkChange WARNING "FIELD_DEPRECATED" "field Query.me was deprecated"]
  /\ mkValidationConfig (-86400) 0 = mkValidationConfig (-86400) 0.
Proof.
  exact (X12_json_report_injective
           (Some "https://engine.example/checks/1")
           [mkChange WARNING "FIELD_DEPRECATED" "field Query.me was deprecated"]
           (mkValidationConfig (-86400) 0)
           (Some "https://engine.example/checks/1")
           [mkChange WARNING "FIELD_DEPRECATED" "field Query.me was deprecated"]
           (mkValidationConfig (-86400) 0) eq_refl).
Defined.

Lemma X13_witness_markdown_run_throws :
  fst (exec (run (AffectedQuery := unit) (HistoricParameters := unit)
               (fun _ : string => @inr unit unit tt)
               (["no git repository found"], inr (@None unit))
               (fun _ : unit => tt) (fun _ => inr None)
               (fun _ => inr (sampleResult 604800))
               (fun s => s) (fun s => s) 1700000000000 1700000000000
               (fun _ => 0) None sampleConfig
               (sampleFlags false true)))
  = inl TypeError.
Proof.
  exact (X13_successful_run_outcome
           (AffectedQuery := unit) (HistoricParameters := unit)
           (fun _ : string => @inr unit unit tt)
           (["no git repository found"], inr (@None unit))
           (fun _ : unit => tt) (fun _ => inr None)
           (fun _ => inr (sampleResult 604800))
           (fun s => s) (fun s => s) 1700000000000 1700000000000
           (fun _ => 0) None sampleConfig
           (sampleFlags false true) tt None None (sampleResult 604800)
           eq_refl eq_refl eq_refl eq_refl eq_refl).
Defined.

Lemma X14_witness_other_changes_same_report :
  formatMarkdown 0 0 (fun _ => 0) (@sampleResult unit 604800) sampleConfig
  = formatMarkdown 0 0 (fun _ => 0)
      (mkCheckSchemaResult (Some "https://engine.example/checks/1")
         (mkDiffToPrevious
            [mkChange WARNING "A" "a"; mkChange FAILURE "B" "b"] (@nil unit)
            (mkValidationConfig (-604800) 0)))
      sampleConfig.
Proof.
  exact (X14_markdown_depends_on_counts_only 0 0 (fun _ => 0)
           (@sampleResult unit 604800)
           (mkCheckSchemaResult (Some "https://engine.example/checks/1")
              (mkDiffToPrevious
                 [mkChange WARNING "A" "a"; mkChange FAILURE "B" "b"]
                 (@nil unit) (mkValidationConfig (-604800) 0)))
           sampleConfig eq_refl eq_refl eq_refl eq_refl eq_refl).
Defined.

Lemma C2_witness_validation_throws :
  fst (exec (run (AffectedQuery := unit) (HistoricParameters := unit)
               (fun _ : string => @inr unit unit tt)
               (["no git repository found"], inr (@None unit))
               (fun _ : unit => tt) (fun _ => inl tt)
               (fun _ => inr (sampleResult 604800))
               (fun s => s) (fun s => s) 1700000000000 1700000000000
               (fun _ => 0) None sampleConfig
               (sampleFlags false false)))
  = inl (Raised tt)
  /\ forall v,
       ~ In (CheckSchema v)
           (snd (exec (run (AffectedQuery := unit) (HistoricParameters := unit)
                         (fun _ : string => @inr unit unit tt)
                         (["no git repository found"], inr (@None unit))
                         (fun _ : unit => tt) (fun _ => inl tt)
                         (fun _ => inr (sampleResult 604800))
                         (fun s => s) (fun s => s)
                         1700000000000 1700000000000
                         (fun _ => 0) None sampleConfig
                         (sampleFlags false false)))).
Proof.
  destruct (C2_validation_precedes_check
              (AffectedQuery := unit) (HistoricParameters := unit)
              (fun _ : string => @inr unit unit tt)
              (["no git repository found"], inr (@None unit))
              (fun _ : unit => tt) (fun _ => inl tt)
              (fun _ => inr (sampleResult 604800))
              (fun s => s) (fun s => s) 1700000000000 1700000000000
              (fun _ => 0) None sampleConfig
              (sampleFlags false false)) as (_ & H).
  destruct (H tt eq_refl) as (_ & N & E).
  split; [apply E; cbn; auto 10 | exact N].
Defined.
